(** * Per-test coverage collector (pytest_tia_plugin.py)

    A shallow embedding of [TIACoveragePlugin] and of the module-level
    hooks of [examples/python-backend/pytest_tia_plugin.py], with the
    properties of the identifier sanitizer, of the format converter and
    of the teardown hook.

    Conventions of the embedding:
    - a Python [str] is a [string] of 8-bit characters;
    - a Python [int] is a [Z]; an index produced by [enumerate] is a [nat];
    - a [dict] with [str] keys is a [gmap string _];
    - a raised exception is the [Raise] case of [res]; [exn] ranges over
      instances of [Exception];
    - the tracer (the [coverage] package) and the file system are black
      boxes: the outcome of each of their calls is a field of an oracle
      record, and the calls that change the outside world are recorded
      as [event]s. *)

From Stdlib Require Import Ascii.
From stdpp Require Import base option list list_numbers sorting gmap strings pretty.

Local Open Scope Z_scope.

(** ** Strings *)

Module Str.

Definition newline : ascii := "010"%char.

Fixpoint to_list (s : string) : list ascii :=
  match s with
  | EmptyString => []
  | String c tl => c :: to_list tl
  end.

Fixpoint map (f : ascii → ascii) (s : string) : string :=
  match s with
  | EmptyString => EmptyString
  | String c tl => String (f c) (map f tl)
  end.

Fixpoint forallb (p : ascii → bool) (s : string) : bool :=
  match s with
  | EmptyString => true
  | String c tl => p c && forallb p tl
  end.

(** [s.startswith(p)] *)
Fixpoint startswith (p s : string) : bool :=
  match p, s with
  | EmptyString, _ => true
  | String a p', String b s' => bool_decide (a = b) && startswith p' s'
  | String _ _, EmptyString => false
  end.

(** [s.endswith(p)] *)
Definition endswith (p s : string) : bool :=
  startswith (String.rev p) (String.rev s).

(** [p in s] for strings: [p] occurs in [s] at some offset. *)
Fixpoint contains (p s : string) : bool :=
  startswith p s ||
  match s with
  | EmptyString => false
  | String _ tl => contains p tl
  end.

(** [s[-1]], when [s] is not empty. *)
Fixpoint last (s : string) : option ascii :=
  match s with
  | EmptyString => None
  | String c EmptyString => Some c
  | String _ tl => last tl
  end.

(** [str.isspace] on the characters of code point below 256. *)
Definition isspace (c : ascii) : bool :=
  let n := nat_of_ascii c in
  ((9 <=? n) && (n <=? 13) || (28 <=? n) && (n <=? 32)
   || (n =? 133) || (n =? 160))%nat.

(** [s.rstrip()]: drop the trailing whitespace. *)
Fixpoint rstrip (s : string) : string :=
  match s with
  | EmptyString => EmptyString
  | String c tl =>
      match rstrip tl with
      | EmptyString => if isspace c then EmptyString else String c EmptyString
      | tl' => String c tl'
      end
  end.

End Str.

(** ** The fragment of [re] the plugin uses

    The five patterns of the plugin are sequences of atoms: the anchors
    [^] and [$], one character of a class, and a greedy star on a class.
    No flag is given to [re.sub], so [^] matches at the start of the string
    only, [$] matches at the end of the string and just before a newline
    that ends the string, and [.] matches every character but a newline. *)

Module Re.

Inductive charset :=
| Chr (c : ascii)                       (* a literal, also an escaped one *)
| Dot                                   (* [.] *)
| NotIn (ranges : list (ascii * ascii)) (* [[^a-b...]] *).

Inductive atom :=
| Bol                   (* [^] *)
| Eol                   (* [$] *)
| One (cs : charset)
| Many (cs : charset)   (* [cs*], greedy *).

Definition regex := list atom.

Definition in_range (c : ascii) (r : ascii * ascii) : bool :=
  ((nat_of_ascii r.1 <=? nat_of_ascii c) && (nat_of_ascii c <=? nat_of_ascii r.2))%nat.

Definition accepts (cs : charset) (c : ascii) : bool :=
  match cs with
  | Chr a => bool_decide (a = c)
  | Dot => negb (bool_decide (c = Str.newline))
  | NotIn ranges => negb (existsb (in_range c) ranges)
  end.

(** [$] at the position where [s] is what remains of the subject. *)
Definition at_eol (s : string) : bool :=
  match s with
  | EmptyString => true
  | String c EmptyString => bool_decide (c = Str.newline)
  | _ => false
  end.

(** Greedy star with backtracking: take one more character when the rest
    of the pattern still matches after it, else hand over to the
    continuation [k] here. The result is the number of characters the
    match consumes. *)
Fixpoint many (p : ascii → bool) (k : bool → string → option nat)
    (bos : bool) (s : string) : option nat :=
  match s with
  | String c tl =>
      if p c then
        match many p k false tl with
        | Some n => Some (S n)
        | None => k bos s
        end
      else k bos s
  | EmptyString => k bos s
  end.

(** Match [r] at the current position; [bos] tells whether the position
    is the beginning of the subject string and [s] is the subject from
    the position on. *)
Fixpoint match_here (r : regex) (bos : bool) (s : string) : option nat :=
  match r with
  | [] => Some 0%nat
  | Bol :: r' => if bos then match_here r' bos s else None
  | Eol :: r' => if at_eol s then match_here r' bos s else None
  | One cs :: r' =>
      match s with
      | String c tl =>
          if accepts cs c then S <$> match_here r' false tl else None
      | EmptyString => None
      end
  | Many cs :: r' => many (accepts cs) (match_here r') bos s
  end.

(** [re.sub(r, repl, s)] for a pattern that matches no empty string (as
    is the case of the five patterns below, see [match_here_nonempty]):
    scan from the left; at a position where the pattern matches, emit
    [repl] and resume behind the match, else keep the character. [skip]
    counts the characters of the current match that are still to be
    dropped. *)
Fixpoint sub_from (r : regex) (repl : string) (bos : bool) (skip : nat)
    (s : string) : string :=
  match s with
  | EmptyString => EmptyString
  | String c tl =>
      match skip with
      | S k => sub_from r repl false k tl
      | O =>
          match match_here r bos s with
          | Some (S n) => repl +:+ sub_from r repl false n tl
          | _ => String c (sub_from r repl false 0 tl)
          end
      end
  end.

Definition sub (r : regex) (repl s : string) : string :=
  sub_from r repl true 0 s.

(** A pattern that starts, behind its anchors, with one character of a
    class consumes a character wherever it matches. *)
Fixpoint consuming (r : regex) : bool :=
  match r with
  | Bol :: r' | Eol :: r' => consuming r'
  | One _ :: _ => true
  | _ => false
  end.

Definition lit (s : string) : regex := (λ c, One (Chr c)) <$> Str.to_list s.

(** [r'^test_'] *)
Definition test_prefix : regex := Bol :: lit "test_".
(** [r'\[.*\]$'] *)
Definition param_suffix : regex :=
  [One (Chr "["%char); Many Dot; One (Chr "]"%char); Eol].
(** [r'[^a-zA-Z0-9]'] *)
Definition special : regex :=
  [One (NotIn [("a", "z"); ("A", "Z"); ("0", "9")]%char)].
(** [r'^Test'] *)
Definition Test_prefix : regex := Bol :: lit "Test".
(** [r'Test$'] *)
Definition Test_suffix : regex := lit "Test" ++ [Eol].

End Re.

(** ** Identifier sanitizer *)

(** [TIACoveragePlugin.sanitize_test_name]; the receiver is not used. *)
Definition sanitize_test_name (test_name : string) : string :=
  let name := Re.sub Re.test_prefix "" test_name in
  let name := Re.sub Re.param_suffix "" name in
  Re.sub Re.special "_" name.

(** [TIACoveragePlugin.sanitize_class_name]; the receiver is not used. *)
Definition sanitize_class_name (class_name : string) : string :=
  let name := Re.sub Re.Test_prefix "" class_name in
  let name := Re.sub Re.Test_suffix "" name in
  Re.sub Re.special "_" name.

(** ** Exceptions *)

(** An instance of [Exception]: its class name and [str(e)]. *)
Record exn := Exn { exn_class : string; exn_str : string }.

Definition IndexError : exn := Exn "IndexError" "list index out of range".

Inductive res (A : Type) :=
| Ok (a : A)
| Raise (e : exn).
Arguments Ok {A} a.
Arguments Raise {A} e.

Global Instance res_ret : MRet res := λ A a, Ok a.
Global Instance res_bind : MBind res := λ A B k m,
  match m with
  | Ok a => k a
  | Raise e => Raise e
  end.

(** A [for] loop whose body may raise. *)
Fixpoint foldlM {A B} (body : A → B → res A) (a : A) (l : list B) : res A :=
  match l with
  | [] => Ok a
  | x :: l' => a' ← body a x; foldlM body a' l'
  end.

(** [l[i]] with Python's negative indices. *)
Definition py_index {A} (l : list A) (i : Z) : res A :=
  let j := if bool_decide (i < 0) then i + Z.of_nat (length l) else i in
  if bool_decide (j < 0) then Raise IndexError
  else match l !! Z.to_nat j with
       | Some x => Ok x
       | None => Raise IndexError
       end.

Fixpoint enumerate_from {A} (i : nat) (l : list A) : list (nat * A) :=
  match l with
  | [] => []
  | x :: l' => (i, x) :: enumerate_from (S i) l'
  end.
(** [enumerate(l)] *)
Definition enumerate {A} (l : list A) : list (nat * A) := enumerate_from 0 l.

(** [sorted(s)] of a set of integers. *)
Definition sorted (s : gset Z) : list Z := merge_sort (≤) (elements s).

(** ** Data model *)

Record Position := { line : Z; column : Z }.
Record Range := { start : Position; end_ : Position }.

(** The value of one file in the artifact; the fields are the keys of the
    dictionary that [create_file_coverage] returns. *)
Module Report.
Record t := {
  path : string;
  statementMap : gmap string Range;
  fnMap : gmap string ();
  branchMap : gmap string ();
  s : gmap string Z;
  f : gmap string ();
  b : gmap string ();
  _coverageSchema : string
}.
End Report.

(** The tracer: what the calls on one [coverage.Coverage] object and on
    its [CoverageData] give. *)
Module Cov.
Record t := {
  start : res ();
  stop : res ();
  save : res ();
  measured_files : list string;
  lines : string → option (list Z)
}.
End Cov.

(** The file system, at the time of one conversion: [readlines p] is the
    outcome of [open(p, 'r')] followed by [f.readlines()], [open_w p] that
    of opening [p] for writing and dumping the document, [mkdir p] that of
    [Path(p).mkdir(parents=True, exist_ok=True)], and [relpath] is
    [os.path.relpath]. *)
Module Fs.
Record t := {
  readlines : string → res (list string);
  relpath : string → string;
  open_w : string → res ();
  mkdir : string → res ()
}.
End Fs.

(** The test item the runner hands to the hooks: [item.name], and
    [item.cls.__name__] when [item.cls] is not [None]. *)
Module Item.
Record t := { name : string; cls : option string }.
End Item.

(** What the plugin does to the outside world. *)
Inductive event :=
| Print (text : string)
| CovStart
| CovStop
| CovSave
| Mkdir (dir : string)
| Dump (filepath : string) (doc : gmap string Report.t).

(** ** Format converter *)

Section converter.
Context (fs : Fs.t).

(** The column of the end position, line 137. *)
Definition end_column (file_lines : list string) (line_num : Z) : res Z :=
  if bool_decide (line_num ≤ Z.of_nat (length file_lines)) then
    text ← py_index file_lines (line_num - 1);
    mret (Z.of_nat (String.length (Str.rstrip text)))
  else mret 0.

(** The body of the loop of lines 133-141. *)
Definition add_statement (file_lines : list string) (executed_lines : list Z)
    (acc : gmap string Range * gmap string Z) (it : nat * Z)
    : res (gmap string Range * gmap string Z) :=
  let '(statement_map, s) := acc in
  let '(i, line_num) := it in
  let stmt_id := pretty i in
  col ← end_column file_lines line_num;
  mret (<[stmt_id := {| start := {| line := line_num; column := 0 |};
                        end_ := {| line := line_num; column := col |} |}]>
          statement_map,
        <[stmt_id := if bool_decide (line_num ∈ executed_lines) then 1 else 0]> s).

(** Lines 121-125: the text read at conversion time, empty when the
    file cannot be read. *)
Definition file_lines_of (filepath : string) : list string :=
  match Fs.readlines fs filepath with
  | Ok ls => ls
  | Raise _ => []
  end.

Definition create_file_coverage (filepath : string)
    (executed_lines missing_lines : list Z) : res Report.t :=
  let file_lines := file_lines_of filepath in
  let all_lines : gset Z :=
    list_to_set executed_lines ∪ list_to_set missing_lines in
  '(statement_map, s) ←
    foldlM (add_statement file_lines executed_lines) (∅, ∅)
           (enumerate (sorted all_lines));
  mret {| Report.path := filepath;
          Report.statementMap := statement_map;
          Report.fnMap := ∅;
          Report.branchMap := ∅;
          Report.s := s;
          Report.f := ∅;
          Report.b := ∅;
          Report._coverageSchema := "python-coverage-tia-1.0.0" |}.

(** Lines 94-95: the files the loop skips. *)
Definition skipped (filename : string) : bool :=
  Str.contains "test" filename || Str.endswith "pytest_tia_plugin.py" filename.

(** Lines 101-110: the executed and the missing lines of a file. *)
Definition executed_lines_of (data : Cov.t) (filename : string) : list Z :=
  default [] (Cov.lines data filename).

Definition missing_lines_of (lines : list Z) (filename : string) : list Z :=
  match Fs.readlines fs filename with
  | Ok text =>
      let all_lines := seqZ 1 (Z.of_nat (length text)) in
      filter (λ line, line ∉ lines) all_lines
  | Raise _ => []
  end.

(** Lines 97-113: the report of one file that is not skipped. *)
Definition file_coverage (data : Cov.t) (filename : string) : res Report.t :=
  let rel_path := Fs.relpath fs filename in
  let lines := executed_lines_of data filename in
  let missing_lines := missing_lines_of lines filename in
  create_file_coverage rel_path lines missing_lines.

(** The body of the loop of lines 92-114. *)
Definition add_file (data : Cov.t) (tia_coverage : gmap string Report.t)
    (filename : string) : res (gmap string Report.t) :=
  if skipped filename then mret tia_coverage
  else
    file_coverage ← file_coverage data filename;
    mret (<[Fs.relpath fs filename := file_coverage]> tia_coverage).

End converter.

(** ** Effects of the hooks

    A hook yields the events it caused, in order, and returns or raises. *)

Definition M (A : Type) : Type := list event * res A.

Global Instance M_ret : MRet M := λ A a, ([], Ok a).
Global Instance M_bind : MBind M := λ A B k m,
  match m with
  | (tr, Ok a) => let '(tr', r) := k a in (tr ++ tr', r)
  | (tr, Raise e) => (tr, Raise e)
  end.

Definition emit (ev : event) : M () := ([ev], Ok ()).
Definition lift {A} (r : res A) : M A := ([], r).
(** A call on a black box that the trace records. *)
Definition call {A} (ev : event) (r : res A) : M A := ([ev], r).

(** [try: m except Exception as e: handler e] *)
Definition try_except {A} (m : M A) (handler : exn → M A) : M A :=
  match m with
  | (tr, Raise e) => let '(tr', r) := handler e in (tr ++ tr', r)
  | (tr, Ok a) => (tr, Ok a)
  end.

(** [Path(dir) / filename] on a POSIX system, as a string. *)
Definition path_join (dir filename : string) : string :=
  if Str.startswith "/" filename then filename else dir +:+ "/" +:+ filename.

(** ** The plugin *)

Module TIACoveragePlugin.

(** The attributes of the object. *)
Record t := {
  per_test_coverage_dir : string;
  coverage_dir : string;
  cov : option Cov.t;
  current_test : option Item.t
}.

Section methods.
Context (fs : Fs.t).

Definition __init__ : M t :=
  let per_test_coverage_dir := ".tia/per-test-coverage" in
  let coverage_dir := ".tia/python-coverage" in
  call (Mkdir per_test_coverage_dir) (Fs.mkdir fs per_test_coverage_dir);;
  call (Mkdir coverage_dir) (Fs.mkdir fs coverage_dir);;
  mret {| per_test_coverage_dir := per_test_coverage_dir;
          coverage_dir := coverage_dir;
          cov := None;
          current_test := None |}.

Definition pytest_configure (self : t) : M () :=
  emit (Print "[TIA-Python] Starting test suite with coverage collection").

(** [fresh] is the object that [coverage.Coverage(...)] returns. The
    two attributes are assigned before anything can raise, so the
    object after the call is given apart from the outcome. *)
Definition pytest_runtest_setup (fresh : Cov.t) (self : t) (item : Item.t)
    : t * M () :=
  let self' := {| per_test_coverage_dir := per_test_coverage_dir self;
                  coverage_dir := coverage_dir self;
                  cov := Some fresh;
                  current_test := Some item |} in
  (self',
   call CovStart (Cov.start fresh);;
   let test_name := sanitize_test_name (Item.name item) in
   emit (Print ("[TIA-Python] Starting coverage for test: " +:+ test_name))).

Definition convert_coverage_to_tia_format (self : t)
    : M (gmap string Report.t) :=
  match cov self with
  | None => mret ∅
  | Some c =>
      call CovSave (Cov.save c);;
      let data := c in
      lift (foldlM (add_file fs data) ∅ (Cov.measured_files data))
  end.

(** Lines 62-63 and 69: the name of the artifact. *)
Definition artifact_filename (item : Item.t) : string :=
  let test_name := sanitize_test_name (Item.name item) in
  let class_name := sanitize_class_name (default "NoClass" (Item.cls item)) in
  class_name +:+ "__" +:+ test_name +:+ ".json".

(** The [try] block of [save_test_coverage]. *)
Definition save_test_coverage_try (self : t) (item : Item.t) : M () :=
  let filename := artifact_filename item in
  coverage_data ← convert_coverage_to_tia_format self;
  let filepath := path_join (per_test_coverage_dir self) filename in
  lift (Fs.open_w fs filepath);;
  emit (Dump filepath coverage_data);;
  emit (Print ("[TIA-Python] Saved coverage: " +:+ filename)).

Definition save_failed (item : Item.t) (e : exn) : string :=
  "[TIA-Python] Failed to save coverage for " +:+ Item.name item
    +:+ ": " +:+ exn_str e.

Definition save_test_coverage (self : t) (item : Item.t) : M () :=
  try_except (save_test_coverage_try self item)
             (λ e, emit (Print (save_failed item e))).

Definition pytest_runtest_teardown (self : t) (item : Item.t)
    (nextitem : option Item.t) : M () :=
  match cov self, current_test self with
  | Some c, Some _ =>
      call CovStop (Cov.stop c);;
      save_test_coverage self item;;
      let test_name := sanitize_test_name (Item.name item) in
      emit (Print ("[TIA-Python] Collected coverage for test: " +:+ test_name))
  | _, _ => mret ()
  end.

Definition pytest_sessionfinish (self : t) : M () :=
  emit (Print "[TIA-Python] Test session completed, processing coverage data").

End methods.

End TIACoveragePlugin.

(** ** Module-level hooks

    [item.config] is the same object for every item of a run; what the
    hooks read of it is the attribute [_tia_plugin], absent before
    [pytest_configure]. *)

Record Config := { _tia_plugin : option TIACoveragePlugin.t }.

Section hooks.
Context (fs : Fs.t).

(** The attribute is set once the constructor has returned. *)
Definition pytest_configure (config : Config) : Config * M () :=
  match _tia_plugin config with
  | Some _ => (config, mret ())
  | None =>
      match TIACoveragePlugin.__init__ fs with
      | (tr, Ok plugin) => ({| _tia_plugin := Some plugin |}, (tr, Ok ()))
      | (tr, Raise e) => (config, (tr, Raise e))
      end
  end.

Definition pytest_runtest_setup (fresh : Cov.t) (config : Config)
    (item : Item.t) : Config * M () :=
  match _tia_plugin config with
  | Some plugin =>
      let '(plugin', m) :=
        TIACoveragePlugin.pytest_runtest_setup fresh plugin item in
      ({| _tia_plugin := Some plugin' |}, m)
  | None => (config, mret ())
  end.

Definition pytest_runtest_teardown (config : Config) (item : Item.t)
    (nextitem : option Item.t) : M () :=
  match _tia_plugin config with
  | Some plugin =>
      TIACoveragePlugin.pytest_runtest_teardown fs plugin item nextitem
  | None => mret ()
  end.

Definition pytest_sessionfinish (config : Config) : M () :=
  match _tia_plugin config with
  | Some plugin => TIACoveragePlugin.pytest_sessionfinish plugin
  | None => mret ()
  end.

End hooks.

(** ** Characters of a sanitized identifier *)

(** The class [[A-Za-z0-9]], by code point. *)
Definition alnum (c : ascii) : bool :=
  let n := nat_of_ascii c in
  ((97 <=? n) && (n <=? 122) || (65 <=? n) && (n <=? 90)
   || (48 <=? n) && (n <=? 57))%nat.

(** What the last substitution of a sanitizer does to a character. *)
Definition replace_special (c : ascii) : ascii :=
  if alnum c then c else "_"%char.

(** The class [[A-Za-z0-9_]]. *)
Definition word_char (c : ascii) : bool :=
  alnum c || bool_decide (c = "_"%char).

(** ** Entries of a statement map *)

(** The end column of an entry for a line [line_num >= 1]. *)
Definition column_of (file_lines : list string) (line_num : Z) : Z :=
  match file_lines !! Z.to_nat (line_num - 1) with
  | Some text => Z.of_nat (String.length (Str.rstrip text))
  | None => 0
  end.

Definition range_of (file_lines : list string) (line_num : Z) : Range :=
  {| start := {| line := line_num; column := 0 |};
     end_ := {| line := line_num; column := column_of file_lines line_num |} |}.

Definition hit_of (executed_lines : list Z) (line_num : Z) : Z :=
  if bool_decide (line_num ∈ executed_lines) then 1 else 0.

(** ** A sample run

    A four-line source file [app.py] of which a test executes the lines 1
    and 3, measured under the absolute name [/w/app.py]. *)

Definition sample_text : list string :=
  ["import os" +:+ String Str.newline "";
   "" +:+ String Str.newline "";
   "x = os.getcwd()   " +:+ String Str.newline "";
   "print(x)"].

Definition sample_fs : Fs.t :=
  {| Fs.readlines := λ p,
       if bool_decide (p = "/w/app.py") || bool_decide (p = "app.py")
       then Ok sample_text
       else Raise (Exn "FileNotFoundError" "No such file or directory");
     Fs.relpath := λ p, if bool_decide (p = "/w/app.py") then "app.py" else p;
     Fs.open_w := λ _, Ok ();
     Fs.mkdir := λ _, Ok () |}.

Definition sample_cov : Cov.t :=
  {| Cov.start := Ok ();
     Cov.stop := Ok ();
     Cov.save := Ok ();
     Cov.measured_files := ["/w/app.py"; "/w/tests/test_app.py"; "/w/gone.py"];
     Cov.lines := λ p,
       if bool_decide (p = "/w/app.py") then Some [3; 1]
       else if bool_decide (p = "/w/gone.py") then Some [2; 7]
       else None |}.

(** The report of [app.py] in the sample run. *)
Definition sample_report : Report.t :=
  match file_coverage sample_fs sample_cov "/w/app.py" with
  | Ok r => r
  | Raise _ =>
      {| Report.path := ""; Report.statementMap := ∅; Report.fnMap := ∅;
         Report.branchMap := ∅; Report.s := ∅; Report.f := ∅; Report.b := ∅;
         Report._coverageSchema := "" |}
  end.

(** The entry of line 3 in that report. *)
Definition sample_range : Range :=
  {| start := {| line := 3; column := 0 |};
     end_ := {| line := 3; column := 15 |} |}.

(** The entry of line 1 in that report. *)
Definition sample_range_first : Range :=
  {| start := {| line := 1; column := 0 |};
     end_ := {| line := 1; column := 9 |} |}.

Definition test_get_users : Item.t :=
  {| Item.name := "test_get_users"; Item.cls := Some "TestUsersAPI" |}.

(** A second test of the class, whose setup hook is not run. *)
Definition test_create_user : Item.t :=
  {| Item.name := "test_create_user"; Item.cls := Some "TestUsersAPI" |}.

(** A test of a class named [Test]. *)
Definition test_export : Item.t :=
  {| Item.name := "test_export[csv]"; Item.cls := Some "Test" |}.

(** The configuration of a run after [pytest_configure]. *)
Definition configured : Config :=
  (pytest_configure sample_fs {| _tia_plugin := None |}).1.

(** The configuration once the setup hook has run for [test_get_users];
    the teardown hook does not change it. *)
Definition after_first_test : Config :=
  (pytest_runtest_setup sample_cov configured test_get_users).1.

(** A tracer whose [stop()] raises. *)
Definition stop_error : exn := Exn "CoverageException" "tracer is gone".

Definition failing_stop_cov : Cov.t :=
  {| Cov.start := Ok ();
     Cov.stop := Raise stop_error;
     Cov.save := Ok ();
     Cov.measured_files := [];
     Cov.lines := λ _, None |}.

(** A file system on which no artifact can be written. *)
Definition write_error : exn := Exn "PermissionError" "Permission denied".

Definition readonly_fs : Fs.t :=
  {| Fs.readlines := Fs.readlines sample_fs;
     Fs.relpath := Fs.relpath sample_fs;
     Fs.open_w := λ _, Raise write_error;
     Fs.mkdir := λ _, Ok () |}.

(** The plugin while [test_get_users] is measured in the sample run, and
    the document the converter makes of the measurement. *)
Definition sample_plugin : TIACoveragePlugin.t :=
  {| TIACoveragePlugin.per_test_coverage_dir := ".tia/per-test-coverage";
     TIACoveragePlugin.coverage_dir := ".tia/python-coverage";
     TIACoveragePlugin.cov := Some sample_cov;
     TIACoveragePlugin.current_test := Some test_get_users |}.

Definition sample_doc : gmap string Report.t :=
  match (TIACoveragePlugin.convert_coverage_to_tia_format sample_fs sample_plugin).2 with
  | Ok doc => doc
  | Raise _ => ∅
  end.

(** A tracer that reports line 0 for a file that cannot be read. *)
Definition line_zero_cov : Cov.t :=
  {| Cov.start := Ok ();
     Cov.stop := Ok ();
     Cov.save := Ok ();
     Cov.measured_files := ["/w/app.py"; "/w/gone.py"];
     Cov.lines := λ p,
       if bool_decide (p = "/w/app.py") then Some [3; 1]
       else if bool_decide (p = "/w/gone.py") then Some [0]
       else None |}.

Definition line_zero_plugin : TIACoveragePlugin.t :=
  {| TIACoveragePlugin.per_test_coverage_dir := ".tia/per-test-coverage";
     TIACoveragePlugin.coverage_dir := ".tia/python-coverage";
     TIACoveragePlugin.cov := Some line_zero_cov;
     TIACoveragePlugin.current_test := Some test_get_users |}.

(** The plugin that [pytest_configure] registers. *)
Definition new_plugin : TIACoveragePlugin.t :=
  {| TIACoveragePlugin.per_test_coverage_dir := ".tia/per-test-coverage";
     TIACoveragePlugin.coverage_dir := ".tia/python-coverage";
     TIACoveragePlugin.cov := None;
     TIACoveragePlugin.current_test := None |}.

(** A tracer that cannot be started. *)
Definition start_error : exn := Exn "CoverageException" "cannot start".

Definition failing_start_cov : Cov.t :=
  {| Cov.start := Raise start_error;
     Cov.stop := Ok ();
     Cov.save := Ok ();
     Cov.measured_files := [];
     Cov.lines := λ _, None |}.

(** A file system on which no directory can be made. *)
Definition no_mkdir_fs : Fs.t :=
  {| Fs.readlines := Fs.readlines sample_fs;
     Fs.relpath := Fs.relpath sample_fs;
     Fs.open_w := λ _, Ok ();
     Fs.mkdir := λ _, Raise write_error |}.

(** * Properties *)

(** ** Matching *)

Lemma app_String c s t : String c s +:+ t = String c (s +:+ t).
Proof. reflexivity. Qed.

Lemma app_empty_l s : "" +:+ s = s.
Proof. reflexivity. Qed.

Lemma app_empty_r s : s +:+ "" = s.
Proof. induction s as [|c s IH]; [done|]. by rewrite app_String, IH. Qed.

Lemma length_app s t :
  String.length (s +:+ t) = (String.length s + String.length t)%nat.
Proof. induction s as [|c s IH]; [done|]. rewrite app_String. cbn. by rewrite IH. Qed.

Lemma last_app s t : t ≠ "" → Str.last (s +:+ t) = Str.last t.
Proof.
  intros Ht. induction s as [|c s IH]; [done|].
  rewrite app_String. cbn. destruct (s +:+ t) eqn:E; [|done].
  destruct s; [by destruct t|done].
Qed.

Lemma startswith_app p s : Str.startswith p (p +:+ s) = true.
Proof.
  induction p as [|c p IH]; [done|]. rewrite app_String. cbn.
  by rewrite bool_decide_eq_true_2, IH.
Qed.

Lemma startswith_inv p s :
  Str.startswith p s = true → ∃ rest, s = p +:+ rest.
Proof.
  revert s. induction p as [|a p IH]; intros s; [by exists s|].
  destruct s as [|b s]; [done|]. cbn.
  intros [Hab%bool_decide_eq_true [rest ->]%IH]%andb_true_iff. subst b.
  by exists rest.
Qed.

(** A pattern that consumes does not match the empty string; so do the
    five patterns of the plugin. *)
Lemma match_here_nonempty r : ∀ bos s,
  Re.consuming r = true → Re.match_here r bos s ≠ Some 0%nat.
Proof.
  induction r as [|[| |cs|cs] r IH]; intros bos s Hr; try done; cbn in *.
  - destruct bos; [by apply IH|done].
  - destruct (Re.at_eol s); [by apply IH|done].
  - destruct s as [|c tl]; [done|]. destruct (Re.accepts cs c); [|done].
    by destruct (Re.match_here r false tl).
Qed.

Lemma plugin_patterns_consume :
  Forall (λ r, Re.consuming r = true)
    [Re.test_prefix; Re.param_suffix; Re.special; Re.Test_prefix; Re.Test_suffix].
Proof. repeat constructor. Qed.

(** A literal matches where the subject starts with it. *)
Lemma match_lit p : ∀ r bos s,
  Re.match_here (Re.lit p ++ r) bos (p +:+ s)
  = Nat.add (String.length p)
    <$> Re.match_here r (if p is EmptyString then bos else false) s.
Proof.
  induction p as [|a p IH]; intros r bos s.
  { cbn. rewrite app_empty_l. by destruct (Re.match_here r bos s). }
  rewrite app_String. cbn. rewrite bool_decide_eq_true_2 by done.
  fold (Re.lit p). rewrite IH.
  destruct p; by destruct (Re.match_here r _ s).
Qed.

Lemma match_lit_fails p : ∀ r bos s,
  Str.startswith p s = false → Re.match_here (Re.lit p ++ r) bos s = None.
Proof.
  induction p as [|a p IH]; intros r bos s Hs; [done|].
  destruct s as [|b s]; [done|]. cbn in *. fold (Re.lit p).
  case_bool_decide; [|done]. cbn in Hs. by rewrite IH.
Qed.

(** ** Substitution *)

(** The characters of a match are dropped. *)
Lemma sub_from_skip r repl w : ∀ bos s,
  w ≠ "" →
  Re.sub_from r repl bos (String.length w) (w +:+ s) = Re.sub_from r repl false 0 s.
Proof.
  induction w as [|c w IH]; intros bos s Hw; [done|].
  rewrite app_String. cbn. destruct w as [|c' w]; [done|]. by apply IH.
Qed.

Lemma sub_from_skip_false r repl w s :
  Re.sub_from r repl false (String.length w) (w +:+ s) = Re.sub_from r repl false 0 s.
Proof. destruct w; [done|]. by apply sub_from_skip. Qed.

Lemma sub_from_skip_all r repl w :
  Re.sub_from r repl false (String.length w) w = "".
Proof. induction w as [|c w IH]; [done|]. by cbn. Qed.

(** Behind the start of the subject [^] does not match any more. *)
Lemma sub_from_bol r repl s : Re.sub_from (Re.Bol :: r) repl false 0 s = s.
Proof. induction s as [|c s IH]; [done|]. cbn. by rewrite IH. Qed.

(** [re.sub('^' + p, '', s)] removes a leading [p] and nothing else. *)
Lemma sub_prefix_removed a p s :
  Re.sub (Re.Bol :: Re.lit (String a p)) "" (String a p +:+ s) = s.
Proof.
  unfold Re.sub. rewrite app_String.
  cbn [Re.sub_from Re.match_here].
  rewrite <-app_String, <-(app_nil_r (Re.lit (String a p))), match_lit. cbn.
  rewrite Nat.add_0_r, app_empty_l, sub_from_skip_false. apply sub_from_bol.
Qed.

Lemma sub_prefix_absent p repl s :
  Str.startswith p s = false → Re.sub (Re.Bol :: Re.lit p) repl s = s.
Proof.
  intros Hs. unfold Re.sub. destruct s as [|c s]; [done|].
  cbn [Re.sub_from Re.match_here].
  rewrite <-(app_nil_r (Re.lit p)), match_lit_fails by done.
  by rewrite sub_from_bol.
Qed.

Lemma special_accepts c :
  Re.accepts (Re.NotIn [("a", "z"); ("A", "Z"); ("0", "9")]%char) c = negb (alnum c).
Proof. destruct c as [[] [] [] [] [] [] [] []]; reflexivity. Qed.

Lemma sub_from_special bos s :
  Re.sub_from Re.special "_" bos 0 s
  = Str.map replace_special s.
Proof.
  revert bos. induction s as [|c tl IH]; intros bos; [done|].
  cbn [Re.sub_from Re.special Re.match_here Str.map].
  rewrite special_accepts. unfold replace_special.
  destruct (alnum c); cbn.
  - by rewrite IH.
  - by rewrite app_String, app_empty_l, IH.
Qed.

Lemma sub_special s :
  Re.sub Re.special "_" s = Str.map replace_special s.
Proof. apply sub_from_special. Qed.

Lemma forallb_word_char_map s :
  Str.forallb word_char (Str.map replace_special s) = true.
Proof.
  induction s as [|c tl IH]; [done|]. cbn. rewrite IH, andb_true_r.
  unfold word_char, replace_special. destruct (alnum c) eqn:E; [by rewrite E|done].
Qed.

(** [re.sub(p + '$', '', s)] removes [p] at the end of [s], and nothing
    before it, when [p] does not end in a newline. *)
Lemma match_suffix_inside p c w bos :
  p ≠ "" → Str.last p ≠ Some Str.newline →
  Re.match_here (Re.lit p ++ [Re.Eol]) bos (String c (w +:+ p)) = None.
Proof.
  intros Hp Hlast.
  destruct (Str.startswith p (String c (w +:+ p))) eqn:Hstart;
    [|by apply match_lit_fails].
  apply startswith_inv in Hstart as [rest Hrest]. rewrite Hrest, match_lit.
  assert (String.length rest = S (String.length w)) as Hlen.
  { apply (f_equal String.length) in Hrest. cbn in Hrest.
    rewrite !length_app in Hrest. lia. }
  destruct rest as [|d [|d' rest]]; [done| |by destruct p].
  cbn. case_bool_decide as Hd; [|by destruct p]. subst d. exfalso.
  apply Hlast. rewrite <-(last_app (String c w) p Hp), app_String, Hrest.
  by rewrite last_app.
Qed.

Lemma sub_from_suffix_removed p w : ∀ bos,
  p ≠ "" → Str.last p ≠ Some Str.newline →
  Re.sub_from (Re.lit p ++ [Re.Eol]) "" bos 0 (w +:+ p) = w.
Proof.
  induction w as [|c w IH]; intros bos Hp Hlast.
  - rewrite app_empty_l. destruct p as [|a p]; [done|].
    cbn [Re.sub_from].
    assert (Re.match_here (Re.lit (String a p) ++ [Re.Eol]) bos (String a p)
            = Some (S (String.length p))) as ->.
    { rewrite <-(app_empty_r (String a p)) at 2. rewrite match_lit. cbn.
      by rewrite Nat.add_0_r. }
    by rewrite app_empty_l, sub_from_skip_all.
  - rewrite app_String. cbn [Re.sub_from].
    rewrite match_suffix_inside by done. by rewrite IH.
Qed.

Lemma sub_suffix_removed p w :
  p ≠ "" → Str.last p ≠ Some Str.newline →
  Re.sub (Re.lit p ++ [Re.Eol]) "" (w +:+ p) = w.
Proof. apply sub_from_suffix_removed. Qed.

(** The star of [\[.*\]$] runs to the end of a parameter list that has no
    newline and gives the closing bracket back. *)
Lemma many_dot_bracket param : ∀ bos,
  Str.forallb (λ c, negb (bool_decide (c = Str.newline))) param = true →
  Re.many (Re.accepts Re.Dot) (Re.match_here [Re.One (Re.Chr "]"); Re.Eol])
    bos (param +:+ "]")
  = Some (S (String.length param)).
Proof.
  induction param as [|c param IH]; intros bos Hnl.
  { by destruct bos. }
  cbn in Hnl. apply andb_true_iff in Hnl as [Hc Hnl].
  rewrite app_String. cbn [Re.many Re.accepts]. rewrite Hc.
  by rewrite (IH false Hnl).
Qed.

Lemma match_here_One cs r bos c tl :
  Re.match_here (Re.One cs :: r) bos (String c tl)
  = if Re.accepts cs c then S <$> Re.match_here r false tl else None.
Proof. reflexivity. Qed.

Lemma match_here_Many cs r bos s :
  Re.match_here (Re.Many cs :: r) bos s
  = Re.many (Re.accepts cs) (Re.match_here r) bos s.
Proof. reflexivity. Qed.

Lemma match_param_suffix param bos :
  Str.forallb (λ c, negb (bool_decide (c = Str.newline))) param = true →
  Re.match_here Re.param_suffix bos ("[" +:+ param +:+ "]")
  = Some (S (S (String.length param))).
Proof.
  intros Hparam. unfold Re.param_suffix.
  rewrite app_String, app_empty_l, match_here_One, match_here_Many.
  by rewrite (many_dot_bracket param false Hparam).
Qed.

Lemma match_param_suffix_fails c s bos :
  c ≠ "["%char → Re.match_here Re.param_suffix bos (String c s) = None.
Proof.
  intros Hc. unfold Re.param_suffix. rewrite match_here_One. cbn.
  by rewrite bool_decide_eq_false_2.
Qed.

Lemma sub_from_param_suffix_removed body param : ∀ bos,
  Str.forallb (λ c, negb (bool_decide (c = "["%char))) body = true →
  Str.forallb (λ c, negb (bool_decide (c = Str.newline))) param = true →
  Re.sub_from Re.param_suffix "" bos 0 (body +:+ "[" +:+ param +:+ "]") = body.
Proof.
  induction body as [|c body IH]; intros bos Hbody Hparam.
  - rewrite app_empty_l.
    pose proof (match_param_suffix param bos Hparam) as Hmatch.
    rewrite app_String, app_empty_l in Hmatch |- *.
    cbn [Re.sub_from]. rewrite Hmatch, app_empty_l.
    replace (S (String.length param)) with (String.length (param +:+ "]"))
      by (rewrite length_app; cbn; lia).
    by rewrite sub_from_skip_all.
  - cbn in Hbody. apply andb_true_iff in Hbody as [Hc Hbody].
    apply negb_true_iff, bool_decide_eq_false in Hc.
    rewrite app_String. cbn [Re.sub_from].
    rewrite match_param_suffix_fails by done. by rewrite IH.
Qed.

Lemma sub_from_param_suffix_absent repl s : ∀ bos,
  Str.forallb (λ c, negb (bool_decide (c = "["%char))) s = true →
  Re.sub_from Re.param_suffix repl bos 0 s = s.
Proof.
  induction s as [|c s IH]; intros bos Hs; [done|].
  cbn in Hs. apply andb_true_iff in Hs as [Hc Hs].
  apply negb_true_iff, bool_decide_eq_false in Hc.
  cbn [Re.sub_from]. rewrite match_param_suffix_fails by done. by rewrite IH.
Qed.

(** A literal that does not occur in the subject is not replaced. *)
Lemma sub_from_lit_absent p r repl s : ∀ bos,
  Str.contains p s = false → Re.sub_from (Re.lit p ++ r) repl bos 0 s = s.
Proof.
  induction s as [|c s IH]; intros bos Hs; [done|].
  cbn in Hs. apply orb_false_iff in Hs as [Hstart Hs].
  cbn [Re.sub_from]. rewrite match_lit_fails by done. by rewrite IH.
Qed.

Lemma contains_startswith p s :
  Str.contains p s = false → Str.startswith p s = false.
Proof. destruct s; cbn; by intros [? _]%orb_false_iff. Qed.

(** ** The shape of the sanitized names *)

(** A test name [test_<body>[<param>]] becomes [<body>], with underscores
    for what is not a letter or a digit. *)
Lemma sanitize_test_name_parametrized body param :
  Str.forallb (λ c, negb (bool_decide (c = "["%char))) body = true →
  Str.forallb (λ c, negb (bool_decide (c = Str.newline))) param = true →
  sanitize_test_name ("test_" +:+ body +:+ "[" +:+ param +:+ "]")
  = Str.map replace_special body.
Proof.
  intros Hbody Hparam. unfold sanitize_test_name, Re.test_prefix.
  rewrite (sub_prefix_removed "t" "est_"). unfold Re.sub at 2.
  rewrite sub_from_param_suffix_removed by done. apply sub_special.
Qed.

Lemma sanitize_test_name_plain body :
  Str.forallb (λ c, negb (bool_decide (c = "["%char))) body = true →
  sanitize_test_name ("test_" +:+ body) = Str.map replace_special body.
Proof.
  intros Hbody. unfold sanitize_test_name, Re.test_prefix.
  rewrite (sub_prefix_removed "t" "est_"). unfold Re.sub at 2.
  rewrite sub_from_param_suffix_absent by done. apply sub_special.
Qed.

(** A class name [Test<w>Test] becomes [<w>], with underscores for what is
    not a letter or a digit. *)
Lemma sanitize_class_name_both w :
  sanitize_class_name ("Test" +:+ w +:+ "Test") = Str.map replace_special w.
Proof.
  unfold sanitize_class_name, Re.Test_prefix, Re.Test_suffix.
  rewrite (sub_prefix_removed "T" "est"), sub_suffix_removed by done.
  apply sub_special.
Qed.

Lemma sanitize_class_name_trailing w :
  Str.startswith "Test" w = false →
  sanitize_class_name (w +:+ "Test") = Str.map replace_special w.
Proof.
  intros Hw. unfold sanitize_class_name, Re.Test_prefix, Re.Test_suffix.
  destruct (Str.startswith "Test" (w +:+ "Test")) eqn:Hstart.
  - assert (w = "") as ->.
    { destruct w as [|a [|b [|c [|d w]]]]; [done|..]; exfalso;
        cbn in Hstart, Hw; rewrite ?app_String, ?app_empty_l in Hstart;
        cbn in Hstart;
        repeat (case_bool_decide; subst; try done); congruence. }
    done.
  - rewrite sub_prefix_absent, sub_suffix_removed by done. apply sub_special.
Qed.

Lemma sanitize_class_name_leading w :
  Str.contains "Test" w = false →
  sanitize_class_name ("Test" +:+ w) = Str.map replace_special w.
Proof.
  intros Hw. unfold sanitize_class_name, Re.Test_prefix, Re.Test_suffix.
  rewrite (sub_prefix_removed "T" "est"). unfold Re.sub at 2.
  rewrite sub_from_lit_absent by done. apply sub_special.
Qed.

(** [C5] The sanitized test name and the sanitized class name consist of
    characters of [[A-Za-z0-9_]] only, whatever the raw name; both are
    functions of the raw name alone. *)
Theorem sanitized_names_are_word_chars (raw : string) :
  Str.forallb word_char (sanitize_test_name raw) = true
  ∧ Str.forallb word_char (sanitize_class_name raw) = true.
Proof.
  unfold sanitize_test_name, sanitize_class_name.
  rewrite !sub_special. split; apply forallb_word_char_map.
Qed.

(** [C6] [sanitize_test_name("test_foo_bar[param]")] is ["foo_bar"]: the
    first substitution removes the leading [test_], the second the
    bracketed suffix at the end, the third leaves the letters and digits
    and maps every other character to an underscore. The same holds of
    every name [test_<body>[<param>]] whose body has no opening bracket
    and whose parameter list has no newline. *)
Theorem sanitize_test_name_example :
  sanitize_test_name "test_foo_bar[param]" = "foo_bar"
  ∧ Re.sub Re.test_prefix "" "test_foo_bar[param]" = "foo_bar[param]"
  ∧ Re.sub Re.param_suffix "" "foo_bar[param]" = "foo_bar"
  ∧ Re.sub Re.special "_" "foo_bar" = "foo_bar"
  ∧ Str.map replace_special "foo_bar" = "foo_bar"
  ∧ ∀ body param,
      Str.forallb (λ c, negb (bool_decide (c = "["%char))) body = true →
      Str.forallb (λ c, negb (bool_decide (c = Str.newline))) param = true →
      sanitize_test_name ("test_" +:+ body +:+ "[" +:+ param +:+ "]")
      = Str.map replace_special body.
Proof.
  repeat (split; [vm_compute; reflexivity|]).
  apply sanitize_test_name_parametrized.
Qed.

(** [C7] [sanitize_class_name] maps both ["TestWidget"] and ["WidgetTest"]
    to ["Widget"]: a leading [Test], a trailing [Test], or both, are
    removed, and what is not a letter or a digit becomes an underscore. *)
Theorem sanitize_class_name_examples :
  sanitize_class_name "TestWidget" = "Widget"
  ∧ sanitize_class_name "WidgetTest" = "Widget"
  ∧ Str.map replace_special "Widget" = "Widget"
  ∧ (∀ w, sanitize_class_name ("Test" +:+ w +:+ "Test") = Str.map replace_special w)
  ∧ (∀ w, Str.contains "Test" w = false →
          sanitize_class_name ("Test" +:+ w) = Str.map replace_special w
          ∧ sanitize_class_name (w +:+ "Test") = Str.map replace_special w).
Proof.
  repeat (split; [vm_compute; reflexivity|]).
  split; [apply sanitize_class_name_both|].
  intros w Hw. split; [by apply sanitize_class_name_leading|].
  by apply sanitize_class_name_trailing, contains_startswith.
Qed.

(** [C9] The sanitizers are deterministic: on equal raw names they give
    equal results. *)
Theorem sanitizers_deterministic (raw1 raw2 : string) :
  raw1 = raw2 →
  sanitize_test_name raw1 = sanitize_test_name raw2
  ∧ sanitize_class_name raw1 = sanitize_class_name raw2.
Proof. by intros ->. Qed.

Lemma sanitizers_deterministic_witness :
  sanitize_test_name "test_get_users" = sanitize_test_name "test_get_users"
  ∧ sanitize_class_name "test_get_users" = sanitize_class_name "test_get_users".
Proof. apply (sanitizers_deterministic "test_get_users" "test_get_users"). reflexivity. Defined.

(** ** Sorting a set of line numbers *)

Lemma sorted_Permutation (X : gset Z) : sorted X ≡ₚ elements X.
Proof. apply merge_sort_Permutation. Qed.

Lemma sorted_Sorted (X : gset Z) : Sorted (≤) (sorted X).
Proof. apply (Sorted_merge_sort (≤)). Qed.

Lemma elem_of_sorted (X : gset Z) l : l ∈ sorted X ↔ l ∈ X.
Proof. by rewrite sorted_Permutation, elem_of_elements. Qed.

Lemma NoDup_sorted (X : gset Z) : NoDup (sorted X).
Proof. rewrite sorted_Permutation. apply NoDup_elements. Qed.

Lemma length_sorted (X : gset Z) : length (sorted X) = size X.
Proof. by rewrite sorted_Permutation. Qed.

Lemma Sorted_seqZ_nat m (n : nat) : Sorted (≤) (seqZ m (Z.of_nat n)).
Proof.
  revert m. induction n as [|n IH]; intros m.
  { rewrite seqZ_nil by lia. constructor. }
  rewrite seqZ_cons by lia.
  replace (Z.pred (Z.of_nat (S n))) with (Z.of_nat n) by lia.
  constructor; [apply IH|].
  destruct n as [|n].
  - rewrite seqZ_nil by lia. constructor.
  - rewrite seqZ_cons by lia. constructor. lia.
Qed.

(** The executed lines and the missing ones make up the whole file when
    the executed ones lie in it. *)
Lemma sorted_whole_file (lines : list Z) (N : nat) :
  Forall (λ l, 1 ≤ l ≤ Z.of_nat N) lines →
  sorted (list_to_set lines
          ∪ list_to_set (filter (λ l, l ∉ lines) (seqZ 1 (Z.of_nat N))))
  = seqZ 1 (Z.of_nat N).
Proof.
  intros Hin. apply (Sorted_unique (≤)).
  - apply sorted_Sorted.
  - apply Sorted_seqZ_nat.
  - rewrite sorted_Permutation.
    apply NoDup_Permutation; [apply NoDup_elements|apply NoDup_seqZ|].
    intros l. rewrite elem_of_elements, elem_of_union, !elem_of_list_to_set,
      list_elem_of_filter, elem_of_seqZ.
    rewrite Forall_forall in Hin. split.
    + intros [Hl|[_ Hl]]; [apply Hin in Hl|]; lia.
    + intros Hl. destruct (decide (l ∈ lines)); [by left|right; split; [done|lia]].
Qed.

(** ** The loop of [create_file_coverage] *)

Lemma py_index_nonneg {A} (l : list A) i :
  0 ≤ i →
  py_index l i = match l !! Z.to_nat i with
                 | Some x => Ok x
                 | None => Raise IndexError
                 end.
Proof.
  intros Hi. unfold py_index.
  rewrite (bool_decide_eq_false_2 (i < 0)) by lia.
  by rewrite (bool_decide_eq_false_2 (i < 0)) by lia.
Qed.

Lemma end_column_valid file_lines line_num :
  1 ≤ line_num → end_column file_lines line_num = Ok (column_of file_lines line_num).
Proof.
  intros Hpos. unfold end_column, column_of.
  rewrite py_index_nonneg by lia.
  case_bool_decide as Hlen.
  - destruct (file_lines !! Z.to_nat (line_num - 1)) as [text|] eqn:E; [done|].
    apply lookup_ge_None in E. lia.
  - rewrite (proj2 (lookup_ge_None _ _)) by lia. done.
Qed.

Section loop.
Context (file_lines : list string) (executed_lines : list Z).

Local Abbreviation body := (add_statement file_lines executed_lines).

(** When no line number is below 1 the loop ends without raising: it binds
    the identifiers [i], [i+1], ... to the lines in order and leaves every
    other key alone. *)
Lemma loop_total ls : ∀ (i : nat) sm0 s0,
  Forall (λ l, 1 ≤ l) ls →
  ∃ sm s,
    foldlM body (sm0, s0) (enumerate_from i ls) = Ok (sm, s)
    ∧ (∀ (j : nat) l, ls !! j = Some l →
         sm !! pretty (i + j)%nat = Some (range_of file_lines l)
         ∧ s !! pretty (i + j)%nat = Some (hit_of executed_lines l))
    ∧ (∀ k : string, (∀ j : nat, (j < length ls)%nat → k ≠ pretty (i + j)%nat) →
         sm !! k = sm0 !! k ∧ s !! k = s0 !! k).
Proof.
  induction ls as [|l ls IH]; intros i sm0 s0 Hpos.
  { exists sm0, s0. split; [done|]. split; [|done]. intros j l' Hj. by destruct j. }
  apply Forall_cons in Hpos as [Hl Hpos].
  cbn [enumerate_from foldlM]. unfold add_statement at 2.
  rewrite (end_column_valid _ _ Hl). cbn [mbind res_bind mret res_ret].
  destruct (IH (S i) (<[pretty i:=range_of file_lines l]> sm0)
              (<[pretty i:=hit_of executed_lines l]> s0) Hpos)
    as (sm & s & Hrun & Hnew & Hold).
  exists sm, s. split; [exact Hrun|]. split.
  - intros [|j] l' Hj; simplify_eq/=.
    + rewrite Nat.add_0_r.
      destruct (Hold (pretty i)) as [-> ->].
      { intros j _ Heq. apply (inj pretty) in Heq. lia. }
      by rewrite !lookup_insert_eq.
    + replace (i + S j)%nat with (S i + j)%nat by lia. by apply Hnew.
  - intros k Hk. destruct (Hold k) as [-> ->].
    { intros j Hj. replace (S i + j)%nat with (i + S j)%nat by lia.
      apply Hk. simpl. lia. }
    rewrite !lookup_insert_ne; [done|..];
      specialize (Hk 0%nat); rewrite Nat.add_0_r in Hk;
      (intros Heq; apply Hk; [simpl; lia|done]).
Qed.

(** Whenever the loop ends, an entry of the statement map that was not
    there before belongs to a line of the list and has the column that
    line 137 computes for it. *)
Lemma loop_entries ls : ∀ (i : nat) sm0 s0 sm s,
  foldlM body (sm0, s0) (enumerate_from i ls) = Ok (sm, s) →
  ∀ k rng, sm !! k = Some rng →
    sm0 !! k = Some rng
    ∨ ∃ l col, l ∈ ls ∧ end_column file_lines l = Ok col
        ∧ rng = {| start := {| line := l; column := 0 |};
                   end_ := {| line := l; column := col |} |}.
Proof.
  induction ls as [|l ls IH]; intros i sm0 s0 sm s Hrun k rng Hk.
  { left. cbn in Hrun. by simplify_eq. }
  cbn [enumerate_from foldlM] in Hrun. unfold add_statement at 2 in Hrun.
  destruct (end_column file_lines l) as [col|e] eqn:Hcol; [|done].
  cbn [mbind res_bind mret res_ret] in Hrun.
  destruct (IH _ _ _ _ _ Hrun k rng Hk) as [Hin|(l' & col' & Hl' & ? & ?)].
  - destruct (decide (pretty i = k)) as [<-|Hne].
    + rewrite lookup_insert_eq in Hin. simplify_eq.
      right. exists l, col. split; [left|done].
    + rewrite lookup_insert_ne in Hin by done. by left.
  - right. exists l', col'. split; [by right|done].
Qed.

End loop.

(** ** [create_file_coverage] *)

Lemma id_in_range (k : string) (n : nat) :
  (∃ j : nat, (j < n)%nat ∧ k = pretty j) ∨ (∀ j : nat, (j < n)%nat → k ≠ pretty j).
Proof.
  destruct (decide (k ∈ pretty <$> seq 0 n)) as [Hk|Hk].
  - left. apply list_elem_of_fmap in Hk as (j & -> & Hj%elem_of_seq).
    exists j. split; [lia|done].
  - right. intros j Hj ->. apply Hk, list_elem_of_fmap_2, elem_of_seq. lia.
Qed.

Lemma map_size_ids {V} (m : gmap string V) (n : nat) :
  (∀ j : nat, (j < n)%nat → is_Some (m !! pretty j)) →
  (∀ k : string, (∀ j : nat, (j < n)%nat → k ≠ pretty j) → m !! k = None) →
  size m = n.
Proof.
  intros Hin Hout.
  assert (dom m = list_to_set (pretty <$> seq 0 n)) as Hdom.
  { apply set_eq. intros k.
    rewrite elem_of_dom, elem_of_list_to_set, list_elem_of_fmap. split.
    - intros [v Hv].
      destruct (decide (k ∈ pretty <$> seq 0 n)) as [Hk|Hk].
      { by apply list_elem_of_fmap in Hk. }
      rewrite Hout in Hv; [done|]. intros j Hj ->. apply Hk.
      apply list_elem_of_fmap_2, elem_of_seq. lia.
    - intros (j & -> & Hj%elem_of_seq). apply Hin. lia. }
  rewrite <-size_dom, Hdom, size_list_to_set, length_fmap, length_seq; [done|].
  apply (NoDup_fmap_2 _), NoDup_seq.
Qed.

Section create.
Context (fs : Fs.t) (filepath : string) (executed_lines missing_lines : list Z).

Local Abbreviation ls :=
  (sorted (list_to_set executed_lines ∪ list_to_set missing_lines)).
Local Abbreviation file_lines := (file_lines_of fs filepath).

(** Line numbers from 1 on: the function returns, and the statement map
    and the hit counts are the sorted lines, numbered from 0. *)
Lemma create_file_coverage_total :
  Forall (λ l, 1 ≤ l) executed_lines →
  Forall (λ l, 1 ≤ l) missing_lines →
  ∃ r, create_file_coverage fs filepath executed_lines missing_lines = Ok r
    ∧ Report.path r = filepath
    ∧ (∀ (j : nat) l, ls !! j = Some l →
         Report.statementMap r !! pretty j = Some (range_of file_lines l)
         ∧ Report.s r !! pretty j = Some (hit_of executed_lines l))
    ∧ (∀ k : string, (∀ j : nat, (j < length ls)%nat → k ≠ pretty j) →
         Report.statementMap r !! k = None ∧ Report.s r !! k = None)
    ∧ size (Report.statementMap r) = length ls
    ∧ size (Report.s r) = length ls.
Proof.
  intros Hex Hmiss.
  assert (Forall (λ l, 1 ≤ l) ls) as Hpos.
  { apply Forall_forall. intros l.
    rewrite elem_of_sorted, elem_of_union, !elem_of_list_to_set.
    rewrite Forall_forall in Hex, Hmiss. intros [?|?]; auto. }
  destruct (loop_total file_lines executed_lines ls 0 ∅ ∅ Hpos)
    as (sm & s & Hrun & Hnew & Hold).
  cbn [Nat.add] in Hnew, Hold.
  unfold create_file_coverage, enumerate. rewrite Hrun.
  cbn [mbind res_bind mret res_ret]. eexists. split; [done|]. cbn.
  assert (∀ k : string, (∀ j : nat, (j < length ls)%nat → k ≠ pretty j) →
            sm !! k = None ∧ s !! k = None) as Hout.
  { intros k Hk. by destruct (Hold k Hk) as [-> ->]. }
  split; [done|]. split; [exact Hnew|]. split; [exact Hout|].
  split; apply map_size_ids.
  - intros j [l Hl]%lookup_lt_is_Some. by destruct (Hnew j l Hl) as [-> _].
  - intros k Hk. by apply Hout.
  - intros j [l Hl]%lookup_lt_is_Some. by destruct (Hnew j l Hl) as [_ ->].
  - intros k Hk. by apply Hout.
Qed.

(** Whenever the function returns, each entry of its statement map is
    the entry of one of the lines. *)
Lemma create_file_coverage_entries r k rng :
  create_file_coverage fs filepath executed_lines missing_lines = Ok r →
  Report.statementMap r !! k = Some rng →
  ∃ l col, l ∈ ls ∧ end_column file_lines l = Ok col
    ∧ rng = {| start := {| line := l; column := 0 |};
               end_ := {| line := l; column := col |} |}.
Proof.
  unfold create_file_coverage, enumerate.
  destruct (foldlM _ _ _) as [[sm s]|e] eqn:Hrun; [|done].
  cbn [mbind res_bind mret res_ret]. intros [= <-]. cbn. intros Hk.
  by destruct (loop_entries _ _ _ _ _ _ _ _ Hrun k rng Hk) as [?|?].
Qed.

End create.

(** ** The report of one file *)

(** [C1] A file of [N] lines that can be read and whose executed lines lie
    in [1..N] gets a statement map of exactly [N] entries: the identifiers
    are 0, ..., N-1, identifier [i] stands for line [i+1], and its hit
    count is 1 when line [i+1] was executed and 0 when it was not. *)
Theorem whole_file_statement_map (fs : Fs.t) (data : Cov.t)
    (filename : string) (text : list string) :
  Fs.readlines fs filename = Ok text →
  Forall (λ l, 1 ≤ l ≤ Z.of_nat (length text)) (executed_lines_of data filename) →
  ∃ r, file_coverage fs data filename = Ok r
    ∧ (∀ tia_coverage, skipped filename = false →
         add_file fs data tia_coverage filename
         = Ok (<[Fs.relpath fs filename := r]> tia_coverage))
    ∧ size (Report.statementMap r) = length text
    ∧ size (Report.s r) = length text
    ∧ (∀ k : string, is_Some (Report.statementMap r !! k) →
         ∃ i : nat, (i < length text)%nat ∧ k = pretty i)
    ∧ (∀ i : nat, (i < length text)%nat →
         ∃ col, Report.statementMap r !! pretty i
                = Some {| start := {| line := Z.of_nat i + 1; column := 0 |};
                          end_ := {| line := Z.of_nat i + 1; column := col |} |})
    ∧ (∀ i : nat, (i < length text)%nat →
         Report.s r !! pretty i
         = Some (if bool_decide (Z.of_nat i + 1 ∈ executed_lines_of data filename)
                 then 1 else 0)).
Proof.
  intros Hread Hin. unfold add_file, file_coverage.
  set (lines := executed_lines_of data filename) in *.
  assert (missing_lines_of fs lines filename
          = filter (λ l, l ∉ lines) (seqZ 1 (Z.of_nat (length text)))) as ->.
  { unfold missing_lines_of. by rewrite Hread. }
  destruct (create_file_coverage_total fs (Fs.relpath fs filename) lines
              (filter (λ l, l ∉ lines) (seqZ 1 (Z.of_nat (length text)))))
    as (r & Hr & _ & Hnew & Hout & Hsize1 & Hsize2).
  { eapply Forall_impl; [exact Hin|]. intros l ?; simpl in *; lia. }
  { apply Forall_forall. intros l [_ Hl%elem_of_seqZ]%list_elem_of_filter. lia. }
  rewrite (sorted_whole_file lines (length text) Hin) in Hnew, Hout, Hsize1, Hsize2.
  rewrite length_seqZ, Nat2Z.id in Hout, Hsize1, Hsize2.
  exists r. repeat split; try done.
  - intros tia Hskip. by rewrite Hskip, Hr.
  - intros k [rng Hk]. destruct (id_in_range k (length text)) as [?|Hk']; [done|].
    destruct (Hout k Hk') as [Hnone _]. by rewrite Hnone in Hk.
  - intros i Hi. eexists.
    destruct (Hnew i (1 + Z.of_nat i)) as [-> _]; [apply lookup_seqZ_lt; lia|].
    unfold range_of. by rewrite (Z.add_comm 1).
  - intros i Hi.
    destruct (Hnew i (1 + Z.of_nat i)) as [_ ->]; [apply lookup_seqZ_lt; lia|].
    unfold hit_of. by rewrite (Z.add_comm 1).
Qed.

Lemma whole_file_statement_map_witness :
  ∃ r, file_coverage sample_fs sample_cov "/w/app.py" = Ok r
    ∧ size (Report.statementMap r) = 4%nat
    ∧ Report.s r !! "0" = Some 1
    ∧ Report.s r !! "1" = Some 0
    ∧ Report.s r !! "2" = Some 1
    ∧ Report.s r !! "3" = Some 0.
Proof.
  destruct (whole_file_statement_map sample_fs sample_cov "/w/app.py" sample_text)
    as (r & Hr & _ & Hsize & _ & _ & _ & Hhit).
  - reflexivity.
  - repeat constructor; simpl; lia.
  - exists r. split; [exact Hr|]. split; [exact Hsize|].
    split; [apply (Hhit 0%nat); simpl; lia|].
    split; [apply (Hhit 1%nat); simpl; lia|].
    split; [apply (Hhit 2%nat); simpl; lia|apply (Hhit 3%nat); simpl; lia].
Defined.

(** [C4] A measured file that cannot be read, with executed lines numbered
    from 1: the list of missing lines is empty, the converter returns a
    report for the file and goes on, and the statement map of the report
    has an entry, of hit count 1, for each executed line and for no other
    line. *)
Theorem unreadable_file_statement_map (fs : Fs.t) (data : Cov.t)
    (filename : string) (e : exn) :
  Fs.readlines fs filename = Raise e →
  Forall (λ l, 1 ≤ l) (executed_lines_of data filename) →
  missing_lines_of fs (executed_lines_of data filename) filename = []
  ∧ ∃ r, file_coverage fs data filename = Ok r
      ∧ (∀ tia_coverage, skipped filename = false →
           add_file fs data tia_coverage filename
           = Ok (<[Fs.relpath fs filename := r]> tia_coverage))
      ∧ (∀ (k : string) rng, Report.statementMap r !! k = Some rng →
           line (start rng) ∈ executed_lines_of data filename
           ∧ Report.s r !! k = Some 1)
      ∧ (∀ l, l ∈ executed_lines_of data filename →
           ∃ (k : string) rng,
             Report.statementMap r !! k = Some rng ∧ line (start rng) = l)
      ∧ size (Report.statementMap r)
        = size (list_to_set (C := gset Z) (executed_lines_of data filename)).
Proof.
  intros Hread Hpos.
  assert (missing_lines_of fs (executed_lines_of data filename) filename = [])
    as Hmiss.
  { unfold missing_lines_of. by rewrite Hread. }
  split; [exact Hmiss|].
  unfold add_file, file_coverage. rewrite Hmiss.
  set (lines := executed_lines_of data filename) in *.
  destruct (create_file_coverage_total fs (Fs.relpath fs filename) lines [])
    as (r & Hr & _ & Hnew & Hout & Hsize & _); [done|constructor|].
  assert (∀ l, l ∈ sorted (list_to_set lines ∪ list_to_set []) ↔ l ∈ lines) as Hls.
  { intros l. rewrite elem_of_sorted, elem_of_union, !elem_of_list_to_set, elem_of_nil.
    tauto. }
  exists r. split; [exact Hr|]. split; [|split; [|split]].
  - intros tia Hskip. rewrite Hskip, Hr. done.
  - intros k rng Hk.
    destruct (id_in_range k
      (length (sorted (list_to_set lines ∪ list_to_set [])))) as [(j & Hj & ->)|Hk'].
    + apply lookup_lt_is_Some in Hj as [l Hl].
      destruct (Hnew j l Hl) as [Hsm Hs]. rewrite Hsm in Hk.
      injection Hk as <-. cbn.
      assert (l ∈ lines) as Hin by (apply Hls; by eapply list_elem_of_lookup_2).
      split; [done|]. rewrite Hs. unfold hit_of. by rewrite bool_decide_eq_true_2.
    + destruct (Hout k Hk') as [Hnone _]. by rewrite Hnone in Hk.
  - intros l Hl%Hls. apply list_elem_of_lookup_1 in Hl as [j Hj].
    destruct (Hnew j l Hj) as [Hsm _]. by eexists (pretty j), _.
  - rewrite Hsize, length_sorted. f_equal. apply (right_id_L ∅ (∪)).
Qed.

Lemma unreadable_file_statement_map_witness :
  ∃ r, file_coverage sample_fs sample_cov "/w/gone.py" = Ok r
    ∧ size (Report.statementMap r) = 2%nat.
Proof.
  destruct (unreadable_file_statement_map sample_fs sample_cov "/w/gone.py"
              (Exn "FileNotFoundError" "No such file or directory"))
    as (_ & r & Hr & _ & _ & _ & Hsize).
  - reflexivity.
  - repeat constructor; simpl; lia.
  - exists r. split; [exact Hr|]. rewrite Hsize. vm_compute. reflexivity.
Defined.

(** [C8] In a statement map that the converter has produced, the entry
    of a line [L] of the text starts at line [L], column 0, and ends on
    line [L], at the length of the line without its trailing whitespace
    when the text read at conversion time has a line [L], and at column 0
    when that text is shorter. *)
Theorem statement_positions (fs : Fs.t) (filepath : string)
    (executed_lines missing_lines : list Z) (r : Report.t)
    (stmt_id : string) (rng : Range) :
  create_file_coverage fs filepath executed_lines missing_lines = Ok r →
  Report.statementMap r !! stmt_id = Some rng →
  1 ≤ line (start rng) →
  start rng = {| line := line (start rng); column := 0 |}
  ∧ line (end_ rng) = line (start rng)
  ∧ (line (start rng) ≤ Z.of_nat (length (file_lines_of fs filepath)) →
       ∃ text,
         file_lines_of fs filepath !! Z.to_nat (line (start rng) - 1) = Some text
         ∧ column (end_ rng) = Z.of_nat (String.length (Str.rstrip text)))
  ∧ (Z.of_nat (length (file_lines_of fs filepath)) < line (start rng) →
       column (end_ rng) = 0).
Proof.
  intros Hr Hk HL.
  destruct (create_file_coverage_entries _ _ _ _ _ _ _ Hr Hk)
    as (l & col & _ & Hcol & ->).
  cbn in *. rewrite end_column_valid in Hcol by done. injection Hcol as <-.
  split; [done|]. split; [done|]. unfold column_of. split.
  - intros Hlen.
    destruct (file_lines_of fs filepath !! Z.to_nat (l - 1)) as [text|] eqn:E.
    + by exists text.
    + apply lookup_ge_None in E. lia.
  - intros Hlen. rewrite (proj2 (lookup_ge_None _ _)) by lia. done.
Qed.

Lemma statement_positions_witness :
  start sample_range = {| line := 3; column := 0 |}
  ∧ line (end_ sample_range) = 3
  ∧ ∃ text, sample_text !! 2%nat = Some text
      ∧ column (end_ sample_range) = Z.of_nat (String.length (Str.rstrip text)).
Proof.
  destruct (statement_positions sample_fs "app.py" [3; 1] [2; 4]
              sample_report "2" sample_range) as (H1 & H2 & H3 & _).
  - vm_compute. reflexivity.
  - vm_compute. reflexivity.
  - simpl. lia.
  - split; [exact H1|]. split; [exact H2|]. apply H3. simpl. lia.
Defined.

(** A line number below 1 is out of the domain of the converter: line 137
    looks it up from the end of the text, and raises when the text is too
    short for that. *)
Lemma nonpositive_line_raises :
  create_file_coverage readonly_fs "gone.py" [0] [] = Raise IndexError
  ∧ end_column sample_text 0 = Ok 8.
Proof. split; vm_compute; reflexivity. Qed.

(** ** The artifact *)



(** ** The teardown hook *)

Lemma save_test_coverage_returns fs self item :
  ∃ tr, TIACoveragePlugin.save_test_coverage fs self item = (tr, Ok ())
    ∧ ∀ tr0 e,
        TIACoveragePlugin.save_test_coverage_try fs self item = (tr0, Raise e) →
        tr = tr0 ++ [Print (TIACoveragePlugin.save_failed item e)].
Proof.
  unfold TIACoveragePlugin.save_test_coverage.
  destruct (TIACoveragePlugin.save_test_coverage_try fs self item)
    as [tr0 [[]|e]]; cbn.
  - exists tr0. split; [done|]. intros ?? [=].
  - eexists. split; [done|]. by intros ?? [= <- <-].
Qed.

(** [C2], amended. When [stop()] returns, the teardown hook returns too:
    an exception raised while the artifact of the test is made and written
    (sanitizer, tracer [save()], converter, writer) is caught, a line
    with the raw name of the test and the text of the exception is
    printed, and the hook goes on to its last line. *)
Theorem teardown_swallows_save_failures (fs : Fs.t)
    (self : TIACoveragePlugin.t) (item : Item.t) (nextitem : option Item.t) :
  (∀ c, TIACoveragePlugin.cov self = Some c → Cov.stop c = Ok ()) →
  ∃ tr,
    TIACoveragePlugin.pytest_runtest_teardown fs self item nextitem = (tr, Ok ())
    ∧ ∀ tr0 e,
        is_Some (TIACoveragePlugin.cov self) →
        is_Some (TIACoveragePlugin.current_test self) →
        TIACoveragePlugin.save_test_coverage_try fs self item = (tr0, Raise e) →
        tr = CovStop :: tr0
             ++ [Print ("[TIA-Python] Failed to save coverage for "
                        +:+ Item.name item +:+ ": " +:+ exn_str e);
                 Print ("[TIA-Python] Collected coverage for test: "
                        +:+ sanitize_test_name (Item.name item))].
Proof.
  intros Hstop. unfold TIACoveragePlugin.pytest_runtest_teardown.
  destruct (TIACoveragePlugin.cov self) as [c|] eqn:Hcov.
  2:{ exists []. split; [done|]. by intros ?? [? [=]]. }
  destruct (TIACoveragePlugin.current_test self) as [cur|] eqn:Hcur.
  2:{ exists []. split; [done|]. by intros ?? _ [? [=]]. }
  rewrite (Hstop c eq_refl).
  destruct (save_test_coverage_returns fs self item) as (tr1 & Hsave & Hlog).
  unfold call. cbn [mbind M_bind]. rewrite Hsave. cbn.
  eexists. split; [done|]. intros tr0 e _ _ Htry.
  rewrite (Hlog tr0 e Htry). unfold TIACoveragePlugin.save_failed.
  by rewrite <-app_assoc.
Qed.

Lemma teardown_swallows_save_failures_witness :
  ∃ tr,
    TIACoveragePlugin.pytest_runtest_teardown readonly_fs
      {| TIACoveragePlugin.per_test_coverage_dir := ".tia/per-test-coverage";
         TIACoveragePlugin.coverage_dir := ".tia/python-coverage";
         TIACoveragePlugin.cov := Some sample_cov;
         TIACoveragePlugin.current_test := Some test_get_users |}
      test_get_users None = (tr, Ok ())
    ∧ tr = [CovStop; CovSave;
            Print "[TIA-Python] Failed to save coverage for test_get_users: Permission denied";
            Print "[TIA-Python] Collected coverage for test: get_users"].
Proof.
  destruct (teardown_swallows_save_failures readonly_fs
    {| TIACoveragePlugin.per_test_coverage_dir := ".tia/per-test-coverage";
       TIACoveragePlugin.coverage_dir := ".tia/python-coverage";
       TIACoveragePlugin.cov := Some sample_cov;
       TIACoveragePlugin.current_test := Some test_get_users |}
    test_get_users None) as (tr & Hrun & Hlog).
  - intros c [= <-]. reflexivity.
  - exists tr. split; [exact Hrun|].
    apply (Hlog [CovSave] write_error); [by eexists|by eexists|].
    vm_compute. reflexivity.
Defined.

(** [C2], as stated, fails: an exception that [stop()] raises leaves the
    teardown hook, the method as well as the module-level function. *)
Lemma teardown_propagates_stop_failure :
  TIACoveragePlugin.pytest_runtest_teardown sample_fs
    {| TIACoveragePlugin.per_test_coverage_dir := ".tia/per-test-coverage";
       TIACoveragePlugin.coverage_dir := ".tia/python-coverage";
       TIACoveragePlugin.cov := Some failing_stop_cov;
       TIACoveragePlugin.current_test := Some test_get_users |}
    test_get_users None
  = ([CovStop], Raise stop_error)
  ∧ pytest_runtest_teardown sample_fs
      (pytest_runtest_setup failing_stop_cov configured test_get_users).1
      test_get_users None
    = ([CovStop], Raise stop_error).
Proof. split; vm_compute; reflexivity. Qed.

(** The guards of the teardown hook: nothing happens when no plugin is
    registered, and nothing happens as long as no setup hook has run. *)
Lemma teardown_unregistered_noop fs item nextitem :
  pytest_runtest_teardown fs {| _tia_plugin := None |} item nextitem = ([], Ok ()).
Proof. reflexivity. Qed.

Lemma teardown_before_first_setup_noop fs self item nextitem :
  TIACoveragePlugin.cov self = None ∨ TIACoveragePlugin.current_test self = None →
  TIACoveragePlugin.pytest_runtest_teardown fs self item nextitem = ([], Ok ()).
Proof.
  unfold TIACoveragePlugin.pytest_runtest_teardown. intros [->| ->]; [done|].
  by destruct (TIACoveragePlugin.cov self).
Qed.

(** Neither hook clears the two attributes: once the setup hook has run
    for one test, the teardown hook of any test stops the tracer of that
    setup. *)
Lemma teardown_after_setup_stops fs fresh plugin item item' nextitem :
  ∃ tr r,
    pytest_runtest_teardown fs
      (pytest_runtest_setup fresh {| _tia_plugin := Some plugin |} item).1
      item' nextitem
    = (CovStop :: tr, r).
Proof.
  cbn. unfold TIACoveragePlugin.pytest_runtest_teardown, call. cbn.
  destruct (Cov.stop fresh) as [[]|e]; cbn; [|by eexists _, _].
  destruct (TIACoveragePlugin.save_test_coverage _ _ _) as [tr [[]|e]];
    by eexists _, _.
Qed.

Lemma teardown_first_test :
  ∃ doc,
    pytest_runtest_teardown sample_fs after_first_test test_get_users
      (Some test_create_user)
    = ([CovStop; CovSave;
        Dump ".tia/per-test-coverage/UsersAPI__get_users.json" doc;
        Print "[TIA-Python] Saved coverage: UsersAPI__get_users.json";
        Print "[TIA-Python] Collected coverage for test: get_users"],
       Ok ())
    ∧ doc !! "app.py" = Some sample_report.
Proof. eexists. split; vm_compute; reflexivity. Qed.

(** [C3] fails on the code. The setup hook has run for [test_get_users]
    only; the teardown hook of [test_create_user], whose setup hook was not
    run, finds the tracer and the test of [test_get_users] still in the
    plugin: it stops that tracer again, converts its data and writes an
    artifact under the name of [test_create_user]. *)
Theorem teardown_without_setup_acts :
  ∃ doc,
    pytest_runtest_teardown sample_fs after_first_test test_create_user None
    = ([CovStop; CovSave;
        Dump ".tia/per-test-coverage/UsersAPI__create_user.json" doc;
        Print "[TIA-Python] Saved coverage: UsersAPI__create_user.json";
        Print "[TIA-Python] Collected coverage for test: create_user"],
       Ok ())
    ∧ doc !! "app.py" = Some sample_report
    ∧ (_tia_plugin after_first_test ≫= TIACoveragePlugin.current_test)
      = Some test_get_users.
Proof. eexists. split; [|split]; vm_compute; reflexivity. Qed.

(** ** The name of the artifact *)

Lemma save_test_coverage_try_dumps fs self item tr :
  TIACoveragePlugin.save_test_coverage_try fs self item = (tr, Ok ()) →
  ∃ doc,
    Dump (path_join (TIACoveragePlugin.per_test_coverage_dir self)
                    (TIACoveragePlugin.artifact_filename item)) doc ∈ tr.
Proof.
  unfold TIACoveragePlugin.save_test_coverage_try.
  destruct (TIACoveragePlugin.convert_coverage_to_tia_format fs self)
    as [tr1 [doc|e]]; cbn; [|done].
  destruct (Fs.open_w fs _) as [[]|e]; cbn; [|done].
  intros [= <-]. exists doc. rewrite elem_of_app. right. left.
Qed.

(** [C10] [sanitize_class_name] returns the empty string on ["Test"] and
    on ["TestTest"]; the artifact of a test of such a class is named
    [__<test>.json], with nothing before the two underscores. *)
Theorem empty_class_component (item : Item.t) (class_name : string) :
  Item.cls item = Some class_name →
  class_name = "Test" ∨ class_name = "TestTest" →
  sanitize_class_name class_name = ""
  ∧ TIACoveragePlugin.artifact_filename item
    = "__" +:+ sanitize_test_name (Item.name item) +:+ ".json"
  ∧ Str.startswith "__" (TIACoveragePlugin.artifact_filename item) = true
  ∧ ∀ fs self tr,
      TIACoveragePlugin.save_test_coverage_try fs self item = (tr, Ok ()) →
      ∃ doc,
        Dump (path_join (TIACoveragePlugin.per_test_coverage_dir self)
                ("__" +:+ sanitize_test_name (Item.name item) +:+ ".json")) doc
        ∈ tr.
Proof.
  intros Hcls Hname.
  assert (sanitize_class_name class_name = "") as Hempty.
  { by destruct Hname as [-> | ->]. }
  assert (TIACoveragePlugin.artifact_filename item
          = "__" +:+ sanitize_test_name (Item.name item) +:+ ".json") as Hfile.
  { unfold TIACoveragePlugin.artifact_filename. rewrite Hcls.
    change (default "NoClass" (Some class_name)) with class_name.
    by rewrite Hempty. }
  split; [done|]. split; [done|]. split; [by rewrite Hfile|].
  intros fs self tr Htry. rewrite <-Hfile.
  exact (save_test_coverage_try_dumps fs self item tr Htry).
Qed.

Lemma empty_class_component_witness :
  sanitize_class_name "Test" = ""
  ∧ TIACoveragePlugin.artifact_filename test_export = "__export.json".
Proof.
  destruct (empty_class_component test_export "Test") as (H1 & H2 & _).
  - reflexivity.
  - left. reflexivity.
  - split; [exact H1|]. rewrite H2. vm_compute. reflexivity.
Defined.

(** * Further properties of the converter *)

(** ** The end column, for every integer *)

Lemma length_rstrip s : (String.length (Str.rstrip s) ≤ String.length s)%nat.
Proof.
  induction s as [|c s IH]; [done|]. cbn.
  destruct (Str.rstrip s); [destruct (Str.isspace c)|]; cbn in *; lia.
Qed.

(** Line 137 raises exactly on the numbers that reach before the text
    when counted from its end. *)
Lemma end_column_raises file_lines l :
  l ≤ - Z.of_nat (length file_lines) →
  end_column file_lines l = Raise IndexError.
Proof.
  intros Hl. unfold end_column, py_index.
  rewrite (bool_decide_eq_true_2 (l ≤ _)) by lia.
  rewrite (bool_decide_eq_true_2 (l - 1 < 0)) by lia.
  by rewrite (bool_decide_eq_true_2 (l - 1 + _ < 0)) by lia.
Qed.

Lemma end_column_returns file_lines l :
  - Z.of_nat (length file_lines) < l →
  ∃ col, end_column file_lines l = Ok col
    ∧ (col = 0
       ∨ ∃ text, text ∈ file_lines
           ∧ col = Z.of_nat (String.length (Str.rstrip text))).
Proof.
  intros Hl. destruct (decide (1 ≤ l)) as [Hpos|Hneg].
  - rewrite end_column_valid by done. eexists. split; [done|].
    unfold column_of.
    destruct (file_lines !! Z.to_nat (l - 1)) as [text|] eqn:E; [|by left].
    right. exists text. split; [by eapply list_elem_of_lookup_2|done].
  - unfold end_column, py_index.
    rewrite (bool_decide_eq_true_2 (l ≤ _)) by lia.
    rewrite (bool_decide_eq_true_2 (l - 1 < 0)) by lia.
    rewrite (bool_decide_eq_false_2 (l - 1 + _ < 0)) by lia.
    destruct (file_lines !! Z.to_nat (l - 1 + Z.of_nat (length file_lines)))
      as [text|] eqn:E.
    + eexists. split; [done|]. right. exists text.
      split; [by eapply list_elem_of_lookup_2|done].
    + apply lookup_ge_None in E. lia.
Qed.

Section loop_any.
Context (file_lines : list string) (executed_lines : list Z).

Local Abbreviation body := (add_statement file_lines executed_lines).
Local Abbreviation entry l col :=
  {| start := {| line := l; column := 0 |};
     end_ := {| line := l; column := col |} |}.

Lemma loop_raises ls : ∀ (i : nat) acc,
  Exists (λ l, l ≤ - Z.of_nat (length file_lines)) ls →
  foldlM body acc (enumerate_from i ls) = Raise IndexError.
Proof.
  induction ls as [|l ls IH]; intros i [sm0 s0] Hbad.
  { by apply Exists_nil in Hbad. }
  cbn [enumerate_from foldlM]. unfold add_statement at 2.
  destruct (decide (l ≤ - Z.of_nat (length file_lines))) as [Hl|Hl].
  { by rewrite end_column_raises. }
  destruct (end_column_returns file_lines l) as (col & -> & _); [lia|].
  cbn [mbind res_bind mret res_ret]. apply IH.
  by apply Exists_cons in Hbad as [?|?].
Qed.

Lemma loop_returns ls : ∀ (i : nat) sm0 s0,
  Forall (λ l, - Z.of_nat (length file_lines) < l) ls →
  ∃ sm s,
    foldlM body (sm0, s0) (enumerate_from i ls) = Ok (sm, s)
    ∧ (∀ (j : nat) l, ls !! j = Some l →
         ∃ col, end_column file_lines l = Ok col
           ∧ sm !! pretty (i + j)%nat = Some (entry l col)
           ∧ s !! pretty (i + j)%nat = Some (hit_of executed_lines l))
    ∧ (∀ k : string, (∀ j : nat, (j < length ls)%nat → k ≠ pretty (i + j)%nat) →
         sm !! k = sm0 !! k ∧ s !! k = s0 !! k).
Proof.
  induction ls as [|l ls IH]; intros i sm0 s0 Hok.
  { exists sm0, s0. split; [done|]. split; [|done]. intros j l' Hj. by destruct j. }
  apply Forall_cons in Hok as [Hl Hok].
  cbn [enumerate_from foldlM]. unfold add_statement at 2.
  destruct (end_column_returns file_lines l Hl) as (col & Hcol & _).
  rewrite Hcol. cbn [mbind res_bind mret res_ret].
  destruct (IH (S i) (<[pretty i:=entry l col]> sm0)
              (<[pretty i:=hit_of executed_lines l]> s0) Hok)
    as (sm & s & Hrun & Hnew & Hold).
  exists sm, s. split; [exact Hrun|]. split.
  - intros [|j] l' Hj; simplify_eq/=.
    + rewrite Nat.add_0_r. exists col. split; [done|].
      destruct (Hold (pretty i)) as [-> ->].
      { intros j _ Heq. apply (inj pretty) in Heq. lia. }
      by rewrite !lookup_insert_eq.
    + replace (i + S j)%nat with (S i + j)%nat by lia. by apply Hnew.
  - intros k Hk. destruct (Hold k) as [-> ->].
    { intros j Hj. replace (S i + j)%nat with (i + S j)%nat by lia.
      apply Hk. simpl. lia. }
    rewrite !lookup_insert_ne; [done|..];
      specialize (Hk 0%nat); rewrite Nat.add_0_r in Hk;
      (intros Heq; apply Hk; [simpl; lia|done]).
Qed.

End loop_any.

Section create_any.
Context (fs : Fs.t) (filepath : string) (executed_lines missing_lines : list Z).

Local Abbreviation ls :=
  (sorted (list_to_set executed_lines ∪ list_to_set missing_lines)).
Local Abbreviation file_lines := (file_lines_of fs filepath).
Local Abbreviation entry l col :=
  {| start := {| line := l; column := 0 |};
     end_ := {| line := l; column := col |} |}.

Lemma elem_of_all_lines l : l ∈ ls ↔ l ∈ executed_lines ∨ l ∈ missing_lines.
Proof. by rewrite elem_of_sorted, elem_of_union, !elem_of_list_to_set. Qed.

Lemma create_file_coverage_raises_on l :
  l ∈ executed_lines ∨ l ∈ missing_lines →
  l ≤ - Z.of_nat (length file_lines) →
  create_file_coverage fs filepath executed_lines missing_lines = Raise IndexError.
Proof.
  intros Hin Hl. unfold create_file_coverage, enumerate.
  rewrite loop_raises; [done|].
  apply Exists_exists. exists l. split; [by apply elem_of_all_lines|done].
Qed.

(** What the function returns, whenever it returns. *)
Lemma create_file_coverage_spec r :
  create_file_coverage fs filepath executed_lines missing_lines = Ok r →
  Report.path r = filepath
  ∧ (∀ (j : nat) l, ls !! j = Some l →
       ∃ col, end_column file_lines l = Ok col
         ∧ Report.statementMap r !! pretty j = Some (entry l col)
         ∧ Report.s r !! pretty j = Some (hit_of executed_lines l))
  ∧ (∀ k : string, (∀ j : nat, (j < length ls)%nat → k ≠ pretty j) →
       Report.statementMap r !! k = None ∧ Report.s r !! k = None).
Proof.
  intros Hr.
  destruct (decide (Forall (λ l, - Z.of_nat (length file_lines) < l) ls))
    as [Hok|Hbad].
  - destruct (loop_returns file_lines executed_lines ls 0 ∅ ∅ Hok)
      as (sm & s & Hrun & Hnew & Hold).
    cbn [Nat.add] in Hnew, Hold.
    unfold create_file_coverage, enumerate in Hr. rewrite Hrun in Hr.
    cbn [mbind res_bind mret res_ret] in Hr. injection Hr as <-. cbn.
    split; [done|]. split; [exact Hnew|].
    intros k Hk. by destruct (Hold k Hk) as [-> ->].
  - apply not_Forall_Exists in Hbad; [|apply _].
    apply Exists_exists in Hbad as (l & Hin%elem_of_all_lines & Hl).
    rewrite (create_file_coverage_raises_on l) in Hr; [done|done|]. cbn in Hl. lia.
Qed.

End create_any.

Lemma StronglySorted_lookup_le (l : list Z) : ∀ (i j : nat) x y,
  StronglySorted (≤) l → (i < j)%nat → l !! i = Some x → l !! j = Some y → x ≤ y.
Proof.
  induction l as [|a l IH]; intros i j x y Hl Hij Hi Hj; [done|].
  apply StronglySorted_inv in Hl as [Hl Ha].
  destruct j as [|j]; [lia|]. destruct i as [|i]; simplify_eq/=.
  - rewrite Forall_forall in Ha. by eapply Ha, list_elem_of_lookup_2.
  - eapply (IH i j); [done|lia|done..].
Qed.

Lemma sorted_lookup_lt (X : gset Z) (i j : nat) x y :
  (i < j)%nat → sorted X !! i = Some x → sorted X !! j = Some y → x < y.
Proof.
  intros Hij Hi Hj.
  assert (x ≤ y) as Hle.
  { eapply (StronglySorted_lookup_le (sorted X) i j); [|done..].
    apply (Sorted_StronglySorted _), sorted_Sorted. }
  assert (x ≠ y); [|lia]. intros ->.
  pose proof (NoDup_sorted X) as Hnd.
  rewrite NoDup_alt in Hnd. specialize (Hnd i j y Hi Hj). lia.
Qed.

(** An entry of a returned statement map, read back. *)
Lemma statement_map_lookup fs filepath executed_lines missing_lines r k rng :
  create_file_coverage fs filepath executed_lines missing_lines = Ok r →
  Report.statementMap r !! k = Some rng →
  ∃ (j : nat) l col,
    k = pretty j
    ∧ sorted (list_to_set executed_lines ∪ list_to_set missing_lines) !! j = Some l
    ∧ end_column (file_lines_of fs filepath) l = Ok col
    ∧ rng = {| start := {| line := l; column := 0 |};
               end_ := {| line := l; column := col |} |}
    ∧ Report.s r !! k = Some (hit_of executed_lines l).
Proof.
  intros Hr Hk.
  destruct (create_file_coverage_spec _ _ _ _ _ Hr) as (_ & Hnew & Hout).
  destruct (id_in_range k (length
    (sorted (list_to_set executed_lines ∪ list_to_set missing_lines))))
    as [(j & Hj & ->)|Hk'].
  - apply lookup_lt_is_Some in Hj as [l Hl].
    destruct (Hnew j l Hl) as (col & Hcol & Hsm & Hs).
    exists j, l, col. rewrite Hsm in Hk. by injection Hk as <-.
  - destruct (Hout k Hk') as [Hnone _]. by rewrite Hnone in Hk.
Qed.


(** [X2] In a report that [create_file_coverage] returns, the statement
    map and the hit counts have the same keys, one for each distinct line
    among the executed and the missing ones; the keys are the decimal
    numbers below that count; and the lines of the entries are exactly the
    executed and the missing lines. *)
Theorem statement_map_keys (fs : Fs.t) (filepath : string)
    (executed_lines missing_lines : list Z) (r : Report.t) :
  create_file_coverage fs filepath executed_lines missing_lines = Ok r →
  let all_lines : gset Z :=
    list_to_set executed_lines ∪ list_to_set missing_lines in
  dom (Report.statementMap r) = dom (Report.s r)
  ∧ size (Report.statementMap r) = size all_lines
  ∧ (∀ k : string, is_Some (Report.statementMap r !! k) ↔
       ∃ i : nat, (i < size all_lines)%nat ∧ k = pretty i)
  ∧ (∀ l, (∃ (k : string) rng,
             Report.statementMap r !! k = Some rng ∧ line (start rng) = l) ↔
          l ∈ executed_lines ∨ l ∈ missing_lines).
Proof.
  intros Hr all_lines.
  destruct (create_file_coverage_spec _ _ _ _ _ Hr) as (_ & Hnew & Hout).
  pose proof (length_sorted all_lines) as Hlen. fold all_lines in Hnew, Hout.
  rewrite Hlen in Hout.
  assert (∀ j : nat, (j < size all_lines)%nat →
            is_Some (Report.statementMap r !! pretty j)
            ∧ is_Some (Report.s r !! pretty j)) as Hin.
  { intros j Hj. rewrite <-Hlen in Hj. apply lookup_lt_is_Some in Hj as [l Hl].
    destruct (Hnew j l Hl) as (col & _ & -> & ->). by split. }
  split; [|split; [|split]].
  - apply set_eq. intros k. rewrite !elem_of_dom.
    destruct (id_in_range k (size all_lines)) as [(j & Hj & ->)|Hk].
    + destruct (Hin j Hj). tauto.
    + destruct (Hout k Hk) as [-> ->]. done.
  - apply map_size_ids; [intros j Hj; by apply Hin|intros k Hk; by apply Hout].
  - intros k. split.
    + intros [rng Hk]. destruct (id_in_range k (size all_lines)) as [?|Hk']; [done|].
      destruct (Hout k Hk') as [Hnone _]. by rewrite Hnone in Hk.
    + intros (j & Hj & ->). by apply Hin.
  - intros l. rewrite <-(elem_of_all_lines executed_lines missing_lines). split.
    + intros (k & rng & Hk & <-).
      destruct (statement_map_lookup _ _ _ _ _ _ _ Hr Hk)
        as (j & l' & col & _ & Hl' & _ & -> & _).
      by eapply list_elem_of_lookup_2.
    + intros [j Hj]%list_elem_of_lookup_1.
      destruct (Hnew j l Hj) as (col & _ & Hsm & _). by eexists _, _.
Qed.

Lemma statement_map_keys_witness :
  dom (Report.statementMap sample_report) = dom (Report.s sample_report)
  ∧ size (Report.statementMap sample_report) = 4%nat.
Proof.
  destruct (statement_map_keys sample_fs "app.py" [3; 1] [2; 4] sample_report)
    as (Hdom & Hsize & _).
  - vm_compute. reflexivity.
  - split; [exact Hdom|]. rewrite Hsize. vm_compute. reflexivity.
Defined.

(** [X3] In a report that [create_file_coverage] returns, the hit count of
    a statement is 1 when its line is among the executed lines, also when
    the line is listed as missing too, and 0 otherwise. *)
Theorem hit_count_of_statement (fs : Fs.t) (filepath : string)
    (executed_lines missing_lines : list Z) (r : Report.t)
    (k : string) (rng : Range) :
  create_file_coverage fs filepath executed_lines missing_lines = Ok r →
  Report.statementMap r !! k = Some rng →
  Report.s r !! k
  = Some (if bool_decide (line (start rng) ∈ executed_lines) then 1 else 0).
Proof.
  intros Hr Hk.
  by destruct (statement_map_lookup _ _ _ _ _ _ _ Hr Hk)
    as (j & l & col & _ & _ & _ & -> & ->).
Qed.

Lemma hit_count_of_statement_witness :
  Report.s sample_report !! "2" = Some 1.
Proof.
  apply (hit_count_of_statement sample_fs "app.py" [3; 1] [2; 3; 4]
           sample_report "2" sample_range); vm_compute; reflexivity.
Defined.

(** [X4] In a report that [create_file_coverage] returns, a greater
    statement id stands for a greater line: no two statements share a
    line, and the ids follow the order of the lines. *)
Theorem statement_ids_ascend (fs : Fs.t) (filepath : string)
    (executed_lines missing_lines : list Z) (r : Report.t)
    (i j : nat) (ri rj : Range) :
  create_file_coverage fs filepath executed_lines missing_lines = Ok r →
  (i < j)%nat →
  Report.statementMap r !! pretty i = Some ri →
  Report.statementMap r !! pretty j = Some rj →
  line (start ri) < line (start rj).
Proof.
  intros Hr Hij Hi Hj.
  destruct (statement_map_lookup _ _ _ _ _ _ _ Hr Hi)
    as (i' & li & ci & ->%(inj pretty) & Hli & _ & -> & _).
  destruct (statement_map_lookup _ _ _ _ _ _ _ Hr Hj)
    as (j' & lj & cj & ->%(inj pretty) & Hlj & _ & -> & _).
  cbn. by eapply sorted_lookup_lt.
Qed.

Lemma statement_ids_ascend_witness :
  line (start sample_range_first) < line (start sample_range).
Proof.
  apply (statement_ids_ascend sample_fs "app.py" [3; 1] [2; 4] sample_report 0 2).
  - vm_compute. reflexivity.
  - lia.
  - vm_compute. reflexivity.
  - vm_compute. reflexivity.
Defined.

(** [X5] Every range of a returned statement map lies on one line, starts
    at column 0 and ends at a column that is 0 or the length, without
    trailing whitespace, of a line of the text read at conversion time; so
    the end column is never negative and never exceeds the length of that
    line. *)
Theorem ranges_well_formed (fs : Fs.t) (filepath : string)
    (executed_lines missing_lines : list Z) (r : Report.t)
    (k : string) (rng : Range) :
  create_file_coverage fs filepath executed_lines missing_lines = Ok r →
  Report.statementMap r !! k = Some rng →
  column (start rng) = 0
  ∧ line (end_ rng) = line (start rng)
  ∧ 0 ≤ column (end_ rng)
  ∧ (column (end_ rng) = 0
     ∨ ∃ text, text ∈ file_lines_of fs filepath
         ∧ column (end_ rng) = Z.of_nat (String.length (Str.rstrip text))
         ∧ column (end_ rng) ≤ Z.of_nat (String.length text)).
Proof.
  intros Hr Hk.
  destruct (statement_map_lookup _ _ _ _ _ _ _ Hr Hk)
    as (j & l & col & _ & _ & Hcol & -> & _). cbn.
  assert (col = 0
          ∨ ∃ text, text ∈ file_lines_of fs filepath
              ∧ col = Z.of_nat (String.length (Str.rstrip text))
              ∧ col ≤ Z.of_nat (String.length text)) as Hbound.
  { destruct (decide (l ≤ - Z.of_nat (length (file_lines_of fs filepath)))) as [Hl|Hl].
    { by rewrite end_column_raises in Hcol. }
    destruct (end_column_returns (file_lines_of fs filepath) l) as (col' & Hcol' & Hc);
      [lia|].
    rewrite Hcol in Hcol'. injection Hcol' as <-.
    destruct Hc as [?|(text & ? & ->)]; [by left|right].
    exists text. split; [done|]. split; [done|].
    pose proof (length_rstrip text). lia. }
  split; [done|]. split; [done|]. split; [|done].
  destruct Hbound as [->|(text & _ & -> & _)]; lia.
Qed.

Lemma ranges_well_formed_witness :
  0 ≤ column (end_ sample_range)
  ∧ (column (end_ sample_range) = 0
     ∨ ∃ text, text ∈ sample_text
         ∧ column (end_ sample_range) = Z.of_nat (String.length (Str.rstrip text))
         ∧ column (end_ sample_range) ≤ Z.of_nat (String.length text)).
Proof.
  destruct (ranges_well_formed sample_fs "app.py" [3; 1] [2; 4] sample_report
              "2" sample_range) as (_ & _ & H3 & H4).
  - vm_compute. reflexivity.
  - vm_compute. reflexivity.
  - split; [exact H3|exact H4].
Defined.

(** ** The report of a file, whatever the tracer says *)


(** [X6] For a file that can be read, with [N] lines, the lines of the
    statement map of its report are the lines 1 to [N] together with the
    executed lines, also those beyond [N]; the statements of hit count 0
    are those of the lines 1 to [N] that were not executed. *)
Theorem file_coverage_lines (fs : Fs.t) (data : Cov.t) (filename : string)
    (text : list string) (r : Report.t) :
  Fs.readlines fs filename = Ok text →
  file_coverage fs data filename = Ok r →
  (∀ l, (∃ (k : string) rng,
           Report.statementMap r !! k = Some rng ∧ line (start rng) = l) ↔
        1 ≤ l ≤ Z.of_nat (length text) ∨ l ∈ executed_lines_of data filename)
  ∧ (∀ (k : string) rng, Report.statementMap r !! k = Some rng →
       (Report.s r !! k = Some 0 ↔
        1 ≤ line (start rng) ≤ Z.of_nat (length text)
        ∧ line (start rng) ∉ executed_lines_of data filename)).
Proof.
  intros Hread Hr. unfold file_coverage in Hr.
  set (lines := executed_lines_of data filename) in *.
  assert (∀ l, l ∈ missing_lines_of fs lines filename ↔
               1 ≤ l ≤ Z.of_nat (length text) ∧ l ∉ lines) as Hmiss.
  { intros l. unfold missing_lines_of. rewrite Hread, list_elem_of_filter, elem_of_seqZ.
    split; intros [??]; (split; [done || lia|done || lia]). }
  destruct (create_file_coverage_spec _ _ _ _ _ Hr) as (_ & Hnew & _).
  split.
  - intros l. split.
    + intros (k & rng & Hk & <-).
      destruct (statement_map_lookup _ _ _ _ _ _ _ Hr Hk)
        as (j & l & col & _ & Hl%list_elem_of_lookup_2 & _ & -> & _). cbn.
      apply elem_of_all_lines in Hl as [?|[??]%Hmiss]; [by right|by left].
    + intros Hl.
      assert (l ∈ sorted (list_to_set lines
                ∪ list_to_set (missing_lines_of fs lines filename))) as Hin.
      { apply elem_of_all_lines. destruct Hl as [Hl|Hl]; [|by left].
        destruct (decide (l ∈ lines)); [by left|right]. by apply Hmiss. }
      apply list_elem_of_lookup_1 in Hin as [j Hj].
      destruct (Hnew j l Hj) as (col & _ & Hsm & _). by eexists _, _.
  - intros k rng Hk.
    destruct (statement_map_lookup _ _ _ _ _ _ _ Hr Hk)
      as (j & l & col & _ & Hl%list_elem_of_lookup_2 & _ & -> & ->). cbn.
    unfold hit_of. case_bool_decide as Hex.
    + split; [done|]. by intros [_ ?].
    + split; [|done]. intros _.
      apply elem_of_all_lines in Hl as [?|[??]%Hmiss]; done.
Qed.

Lemma file_coverage_lines_witness :
  (∃ (k : string) rng,
     Report.statementMap sample_report !! k = Some rng ∧ line (start rng) = 4)
  ∧ Report.s sample_report !! "3" = Some 0.
Proof.
  destruct (file_coverage_lines sample_fs sample_cov "/w/app.py" sample_text
              sample_report) as [Hlines Hzero].
  - reflexivity.
  - vm_compute. reflexivity.
  - split.
    + apply Hlines. left. simpl. lia.
    + apply (Hzero "3" {| start := {| line := 4; column := 0 |};
                          end_ := {| line := 4; column := 8 |} |}).
      * vm_compute. reflexivity.
      * split; [simpl; lia|]. vm_compute. intros H.
        repeat (apply elem_of_cons in H as [H|H]; [discriminate H|]).
        by apply elem_of_nil in H.
Defined.

(** ** The artifact, whatever the tracer says *)

Lemma foldlM_add_file_inv fs data files : ∀ (tia doc : gmap string Report.t),
  foldlM (add_file fs data) tia files = Ok doc →
  ∀ (k : string) r, doc !! k = Some r →
    tia !! k = Some r
    ∨ ∃ f, f ∈ files ∧ skipped f = false ∧ Fs.relpath fs f = k
        ∧ file_coverage fs data f = Ok r.
Proof.
  induction files as [|f0 files IH]; intros tia doc Hrun k r Hk.
  { left. cbn in Hrun. by injection Hrun as ->. }
  cbn [foldlM] in Hrun. unfold add_file at 2 in Hrun.
  destruct (skipped f0) eqn:Hskip; cbn [mbind res_bind mret res_ret] in Hrun.
  - destruct (IH _ _ Hrun k r Hk) as [?|(f & ? & ?)]; [by left|].
    right. exists f. split; [by right|done].
  - destruct (file_coverage fs data f0) as [r0|e] eqn:Hr0; [|done].
    cbn [mbind res_bind mret res_ret] in Hrun.
    destruct (IH _ _ Hrun k r Hk) as [Hin|(f & ? & ?)].
    + destruct (decide (Fs.relpath fs f0 = k)) as [Heq|Hne].
      * rewrite <-Heq, lookup_insert_eq in Hin. injection Hin as ->.
        right. exists f0. split; [by left|done].
      * rewrite lookup_insert_ne in Hin by done. by left.
    + right. exists f. split; [by right|done].
Qed.


(** The converter calls the tracer's [save()] at most, and nothing else
    of the outside world. *)
Lemma convert_coverage_to_tia_format_trace fs self :
  ∃ r, TIACoveragePlugin.convert_coverage_to_tia_format fs self = ([], r)
       ∨ TIACoveragePlugin.convert_coverage_to_tia_format fs self = ([CovSave], r).
Proof.
  unfold TIACoveragePlugin.convert_coverage_to_tia_format.
  destruct (TIACoveragePlugin.cov self) as [c|]; [|by eexists; left].
  unfold call, lift. destruct (Cov.save c) as [[]|e]; cbn.
  - destruct (foldlM _ _ _); eexists; by right.
  - eexists; by right.
Qed.

(** [X7] Every entry of the document that the converter returns is the
    report of a measured file that is not skipped, stored under the
    relative path of that file, and the [path] field of the report is the
    key it is stored under. No file with [test] in its name gets an
    entry of its own. *)
Theorem artifact_entries (fs : Fs.t) (self : TIACoveragePlugin.t)
    (tr : list event) (doc : gmap string Report.t) (k : string) (r : Report.t) :
  TIACoveragePlugin.convert_coverage_to_tia_format fs self = (tr, Ok doc) →
  doc !! k = Some r →
  ∃ c f,
    TIACoveragePlugin.cov self = Some c
    ∧ f ∈ Cov.measured_files c
    ∧ skipped f = false
    ∧ Fs.relpath fs f = k
    ∧ file_coverage fs c f = Ok r
    ∧ Report.path r = k.
Proof.
  unfold TIACoveragePlugin.convert_coverage_to_tia_format.
  destruct (TIACoveragePlugin.cov self) as [c|] eqn:Hcov.
  2:{ intros [= <- <-]. by rewrite lookup_empty. }
  unfold call, lift. destruct (Cov.save c) as [[]|e]; cbn; [|done].
  destruct (foldlM _ _ _) as [doc'|e] eqn:Hrun; [|done].
  intros [= <- <-] Hk.
  destruct (foldlM_add_file_inv _ _ _ _ _ Hrun k r Hk)
    as [Hin|(f & Hf & Hskip & Hrel & Hr)].
  { by rewrite lookup_empty in Hin. }
  exists c, f. repeat (split; [done|]).
  unfold file_coverage in Hr.
  destruct (create_file_coverage_spec _ _ _ _ _ Hr) as (-> & _). done.
Qed.

Lemma artifact_entries_witness :
  ∃ c f,
    Some sample_cov = Some c
    ∧ f ∈ Cov.measured_files c
    ∧ skipped f = false
    ∧ Fs.relpath sample_fs f = "app.py"
    ∧ file_coverage sample_fs c f = Ok sample_report
    ∧ Report.path sample_report = "app.py".
Proof.
  apply (artifact_entries sample_fs
    {| TIACoveragePlugin.per_test_coverage_dir := ".tia/per-test-coverage";
       TIACoveragePlugin.coverage_dir := ".tia/python-coverage";
       TIACoveragePlugin.cov := Some sample_cov;
       TIACoveragePlugin.current_test := Some test_get_users |}
    [CovSave]
    (<["/w/gone.py" :=
         match file_coverage sample_fs sample_cov "/w/gone.py" with
         | Ok r => r
         | Raise _ => sample_report
         end]> {["app.py" := sample_report]})).
  - vm_compute. reflexivity.
  - vm_compute. reflexivity.
Defined.

(** ** The files the converter skips *)

Lemma app_assoc_String s t u : (s +:+ t) +:+ u = s +:+ t +:+ u.
Proof. induction s as [|c s IH]; [done|]. by rewrite !app_String, IH. Qed.

Lemma rev_app_app s : ∀ acc, String.rev_app s acc = String.rev s +:+ acc.
Proof.
  unfold String.rev. induction s as [|c s IH]; intros acc; [done|]. cbn.
  by rewrite (IH (String c acc)), (IH (String c "")), app_assoc_String.
Qed.

Lemma rev_String c s : String.rev (String c s) = String.rev s +:+ String c "".
Proof. unfold String.rev at 1. cbn. apply rev_app_app. Qed.

Lemma rev_app_distr s t : String.rev (s +:+ t) = String.rev t +:+ String.rev s.
Proof.
  induction s as [|c s IH]; [by rewrite app_empty_l, app_empty_r|].
  by rewrite app_String, !rev_String, IH, app_assoc_String.
Qed.

Lemma rev_involutive s : String.rev (String.rev s) = s.
Proof.
  induction s as [|c s IH]; [done|]. by rewrite rev_String, rev_app_distr, IH.
Qed.

(** [s.endswith(p)] holds when [s] is some string followed by [p]. *)
Lemma endswith_inv p s : Str.endswith p s = true → ∃ u, s = u +:+ p.
Proof.
  unfold Str.endswith. intros [rest Hrest]%startswith_inv.
  exists (String.rev rest).
  by rewrite <-(rev_involutive s), Hrest, rev_app_distr, rev_involutive.
Qed.

Lemma startswith_contains p s :
  Str.startswith p s = true → Str.contains p s = true.
Proof. destruct s; cbn; by intros ->. Qed.

(** [p in s] holds when [p] occurs in [s]. *)
Lemma contains_iff p s : Str.contains p s = true ↔ ∃ u v, s = u +:+ p +:+ v.
Proof.
  split.
  - induction s as [|c s IH]; cbn.
    + rewrite orb_false_r. intros [rest ->]%startswith_inv. by exists "", rest.
    + intros [[rest ->]%startswith_inv|(u & v & ->)%IH]%orb_true_iff.
      * by exists "", rest.
      * by exists (String c u), v.
  - intros (u & v & ->). induction u as [|c u IH].
    + rewrite app_empty_l. apply startswith_contains, startswith_app.
    + rewrite app_String. cbn [Str.contains]. rewrite IH. apply orb_true_r.
Qed.

(** [X8] The converter skips a measured file exactly when [test] occurs
    somewhere in its name, in a directory or in the file name, as a word or
    inside one; the second test of line 94, on the name of the plugin's own
    file, skips nothing that the first does not skip. *)
Theorem skipped_iff_test_occurs (filename : string) :
  skipped filename = Str.contains "test" filename
  ∧ (skipped filename = true ↔ ∃ u v, filename = u +:+ "test" +:+ v).
Proof.
  assert (skipped filename = Str.contains "test" filename) as Heq.
  { unfold skipped. destruct (Str.contains "test" filename) eqn:Hc; [done|].
    destruct (Str.endswith "pytest_tia_plugin.py" filename) eqn:He; [|done].
    apply endswith_inv in He as [u ->].
    assert (Str.contains "test" (u +:+ "pytest_tia_plugin.py") = true) as Hin.
    { apply contains_iff. exists (u +:+ "py"), "_tia_plugin.py".
      by rewrite app_assoc_String. }
    congruence. }
  split; [done|]. rewrite Heq. apply contains_iff.
Qed.

(** * Further properties of the hooks *)

(** ** Saving *)

(** [X9] [save_test_coverage] writes an artifact only when nothing has
    failed: a dump in its trace is the only one, it goes to the file named
    after the class and the test in the per-test directory, its document
    is the one the converter returned, the file could be opened, and the
    line printed after it reports the save, not a failure. *)
Theorem dump_only_on_success (fs : Fs.t) (self : TIACoveragePlugin.t)
    (item : Item.t) (filepath : string) (doc : gmap string Report.t) :
  Dump filepath doc ∈ (TIACoveragePlugin.save_test_coverage fs self item).1 →
  filepath = path_join (TIACoveragePlugin.per_test_coverage_dir self)
                       (TIACoveragePlugin.artifact_filename item)
  ∧ (TIACoveragePlugin.convert_coverage_to_tia_format fs self).2 = Ok doc
  ∧ Fs.open_w fs filepath = Ok ()
  ∧ (TIACoveragePlugin.save_test_coverage fs self item).1
    = (TIACoveragePlugin.convert_coverage_to_tia_format fs self).1
      ++ [Dump filepath doc;
          Print ("[TIA-Python] Saved coverage: "
                 +:+ TIACoveragePlugin.artifact_filename item)].
Proof.
  unfold TIACoveragePlugin.save_test_coverage,
    TIACoveragePlugin.save_test_coverage_try, try_except.
  destruct (convert_coverage_to_tia_format_trace fs self) as [r [Hc|Hc]];
    rewrite Hc; destruct r as [d|e]; cbn;
    try destruct (Fs.open_w fs _) as [[]|e'] eqn:Hopen; cbn;
    rewrite ?elem_of_cons, ?elem_of_nil; intros Hin;
    repeat (destruct Hin as [Hin|Hin]; try discriminate Hin); try done;
    by injection Hin as -> ->.
Qed.

Lemma dump_only_on_success_witness :
  (TIACoveragePlugin.save_test_coverage sample_fs sample_plugin test_get_users).1
  = [CovSave;
     Dump ".tia/per-test-coverage/UsersAPI__get_users.json" sample_doc;
     Print "[TIA-Python] Saved coverage: UsersAPI__get_users.json"].
Proof.
  destruct (dump_only_on_success sample_fs sample_plugin test_get_users
    ".tia/per-test-coverage/UsersAPI__get_users.json" sample_doc)
    as (_ & _ & _ & ->).
  - vm_compute. right. left.
  - vm_compute. reflexivity.
Defined.



(** ** The name and the place of the artifact *)

Lemma forallb_app p s t :
  Str.forallb p (s +:+ t) = Str.forallb p s && Str.forallb p t.
Proof.
  induction s as [|c s IH]; [done|]. rewrite app_String. cbn.
  by rewrite IH, andb_assoc.
Qed.

Lemma sanitize_test_name_word_chars raw :
  Str.forallb word_char (sanitize_test_name raw) = true.
Proof. unfold sanitize_test_name. rewrite sub_special. apply forallb_word_char_map. Qed.

Lemma sanitize_class_name_word_chars raw :
  Str.forallb word_char (sanitize_class_name raw) = true.
Proof. unfold sanitize_class_name. rewrite sub_special. apply forallb_word_char_map. Qed.


(** [X11] The artifact of a test always lies directly in the per-test
    directory: its file name is a word of [[A-Za-z0-9_]] followed by
    [.json], so it has no slash and no other dot, it is not an absolute
    path, and joining it to the directory keeps the directory. *)
Theorem artifact_stays_in_directory (dir : string) (item : Item.t) :
  ∃ stem,
    TIACoveragePlugin.artifact_filename item = stem +:+ ".json"
    ∧ Str.forallb word_char stem = true
    ∧ stem ≠ ""
    ∧ path_join dir (TIACoveragePlugin.artifact_filename item)
      = dir +:+ "/" +:+ stem +:+ ".json".
Proof.
  set (cls := sanitize_class_name (default "NoClass" (Item.cls item))).
  set (test := sanitize_test_name (Item.name item)).
  exists (cls +:+ "__" +:+ test).
  assert (TIACoveragePlugin.artifact_filename item
          = (cls +:+ "__" +:+ test) +:+ ".json") as Hname.
  { unfold TIACoveragePlugin.artifact_filename. fold cls test.
    by rewrite !app_assoc_String. }
  assert (Str.forallb word_char (cls +:+ "__" +:+ test) = true) as Hword.
  { rewrite !forallb_app. unfold cls, test.
    by rewrite sanitize_class_name_word_chars, sanitize_test_name_word_chars. }
  assert (cls +:+ "__" +:+ test ≠ "") as Hne.
  { destruct cls; [done|by rewrite app_String]. }
  split; [done|]. split; [done|]. split; [done|].
  rewrite Hname. unfold path_join.
  destruct (cls +:+ "__" +:+ test) as [|c stem]; [done|].
  rewrite app_String. cbn. cbn in Hword.
  apply andb_true_iff in Hword as [Hc _].
  case_bool_decide as Heq; [|done]. subst c. done.
Qed.

(** [X12] The parameters of a parametrized test do not reach the name of
    its artifact: all the variants [test_<body>[<param>]] of a test, and
    the plain test [test_<body>], write to the same file, each over the
    one before. *)
Theorem parametrized_tests_share_artifact (cls : option string)
    (body param1 param2 : string) :
  Str.forallb (λ c, negb (bool_decide (c = "["%char))) body = true →
  Str.forallb (λ c, negb (bool_decide (c = Str.newline))) param1 = true →
  Str.forallb (λ c, negb (bool_decide (c = Str.newline))) param2 = true →
  TIACoveragePlugin.artifact_filename
    {| Item.name := "test_" +:+ body +:+ "[" +:+ param1 +:+ "]"; Item.cls := cls |}
  = TIACoveragePlugin.artifact_filename
      {| Item.name := "test_" +:+ body +:+ "[" +:+ param2 +:+ "]"; Item.cls := cls |}
  ∧ TIACoveragePlugin.artifact_filename
      {| Item.name := "test_" +:+ body +:+ "[" +:+ param1 +:+ "]"; Item.cls := cls |}
    = TIACoveragePlugin.artifact_filename
        {| Item.name := "test_" +:+ body; Item.cls := cls |}.
Proof.
  intros Hbody H1 H2. unfold TIACoveragePlugin.artifact_filename.
  cbn [Item.name Item.cls].
  by rewrite !sanitize_test_name_parametrized, sanitize_test_name_plain.
Qed.

Lemma parametrized_tests_share_artifact_witness :
  TIACoveragePlugin.artifact_filename
    {| Item.name := "test_export[csv]"; Item.cls := Some "TestReports" |}
  = TIACoveragePlugin.artifact_filename
      {| Item.name := "test_export[json]"; Item.cls := Some "TestReports" |}
  ∧ TIACoveragePlugin.artifact_filename
      {| Item.name := "test_export[csv]"; Item.cls := Some "TestReports" |}
    = TIACoveragePlugin.artifact_filename
        {| Item.name := "test_export"; Item.cls := Some "TestReports" |}.
Proof.
  apply (parametrized_tests_share_artifact (Some "TestReports") "export" "csv" "json");
    reflexivity.
Defined.

(** [X13] A test that is not in a class gets the class part [NoClass]; a
    test of the same name in a class whose sanitized name is [NoClass], as
    the classes [NoClass] and [TestNoClass] are, writes to the same
    file. *)
Theorem classless_tests_use_placeholder (name : string) :
  TIACoveragePlugin.artifact_filename {| Item.name := name; Item.cls := None |}
  = "NoClass__" +:+ sanitize_test_name name +:+ ".json"
  ∧ ∀ class_name,
      sanitize_class_name class_name = "NoClass" →
      TIACoveragePlugin.artifact_filename
        {| Item.name := name; Item.cls := Some class_name |}
      = TIACoveragePlugin.artifact_filename
          {| Item.name := name; Item.cls := None |}.
Proof.
  unfold TIACoveragePlugin.artifact_filename. cbn [Item.name Item.cls].
  change (default "NoClass" None) with "NoClass".
  assert (sanitize_class_name "NoClass" = "NoClass") as -> by (vm_compute; reflexivity).
  split; [reflexivity|].
  intros class_name Hc.
  change (default "NoClass" (Some class_name)) with class_name. by rewrite Hc.
Qed.

(** ** Registration *)



(** ** One test, from setup to teardown *)



(** [X16] What the teardown hook does after a setup hook does not depend
    on what the plugin held before that setup, nor on the test the setup
    was for: the tracer it stops and converts is the one of the latest
    setup, and the artifact is named after the test of the teardown. Two
    plugins with the same output directory behave alike from the setup
    on. *)
Theorem teardown_reads_latest_setup (fs : Fs.t) (fresh : Cov.t)
    (plugin1 plugin2 : TIACoveragePlugin.t) (item1 item2 item : Item.t)
    (nextitem : option Item.t) :
  TIACoveragePlugin.per_test_coverage_dir plugin1
  = TIACoveragePlugin.per_test_coverage_dir plugin2 →
  TIACoveragePlugin.pytest_runtest_teardown fs
    (TIACoveragePlugin.pytest_runtest_setup fresh plugin1 item1).1 item nextitem
  = TIACoveragePlugin.pytest_runtest_teardown fs
      (TIACoveragePlugin.pytest_runtest_setup fresh plugin2 item2).1 item nextitem.
Proof.
  intros Hdir.
  unfold TIACoveragePlugin.pytest_runtest_teardown,
    TIACoveragePlugin.pytest_runtest_setup,
    TIACoveragePlugin.save_test_coverage,
    TIACoveragePlugin.save_test_coverage_try,
    TIACoveragePlugin.convert_coverage_to_tia_format.
  cbn [fst TIACoveragePlugin.cov TIACoveragePlugin.current_test
       TIACoveragePlugin.per_test_coverage_dir].
  by rewrite Hdir.
Qed.

Lemma teardown_reads_latest_setup_witness :
  TIACoveragePlugin.pytest_runtest_teardown sample_fs
    (TIACoveragePlugin.pytest_runtest_setup sample_cov new_plugin
       test_get_users).1 test_get_users None
  = TIACoveragePlugin.pytest_runtest_teardown sample_fs
      (TIACoveragePlugin.pytest_runtest_setup sample_cov line_zero_plugin
         test_create_user).1 test_get_users None.
Proof.
  apply (teardown_reads_latest_setup sample_fs sample_cov new_plugin
           line_zero_plugin test_get_users test_create_user test_get_users None).
  reflexivity.
Defined.

(** [X17] When the tracer's [stop()] raises, the teardown hook has done
    nothing but call it: the exception leaves the hook, nothing is
    converted, written or printed, and the test gets no artifact. *)
Theorem stop_failure_propagates (fs : Fs.t) (self : TIACoveragePlugin.t)
    (c : Cov.t) (current item : Item.t) (nextitem : option Item.t) (e : exn) :
  TIACoveragePlugin.cov self = Some c →
  TIACoveragePlugin.current_test self = Some current →
  Cov.stop c = Raise e →
  TIACoveragePlugin.pytest_runtest_teardown fs self item nextitem
  = ([CovStop], Raise e)
  ∧ pytest_runtest_teardown fs {| _tia_plugin := Some self |} item nextitem
    = ([CovStop], Raise e).
Proof.
  intros Hcov Hcur Hstop.
  unfold pytest_runtest_teardown, TIACoveragePlugin.pytest_runtest_teardown, call.
  cbn [_tia_plugin]. by rewrite Hcov, Hcur, Hstop.
Qed.

Lemma stop_failure_propagates_witness :
  pytest_runtest_teardown sample_fs
    {| _tia_plugin := Some
         {| TIACoveragePlugin.per_test_coverage_dir := ".tia/per-test-coverage";
            TIACoveragePlugin.coverage_dir := ".tia/python-coverage";
            TIACoveragePlugin.cov := Some failing_stop_cov;
            TIACoveragePlugin.current_test := Some test_get_users |} |}
    test_create_user None
  = ([CovStop], Raise stop_error).
Proof.
  apply (stop_failure_propagates sample_fs
    {| TIACoveragePlugin.per_test_coverage_dir := ".tia/per-test-coverage";
       TIACoveragePlugin.coverage_dir := ".tia/python-coverage";
       TIACoveragePlugin.cov := Some failing_stop_cov;
       TIACoveragePlugin.current_test := Some test_get_users |}
    failing_stop_cov test_get_users test_create_user None stop_error);
    reflexivity.
Defined.

(** [X18] When the tracer cannot be started, the exception leaves the
    setup hook before its line is printed, but the plugin already holds
    the new tracer and the test: the teardown hook that follows finds the
    guard of line 45 open and calls [stop()] on the tracer that never
    started. *)
Theorem failed_start_leaves_plugin_armed (fs : Fs.t) (fresh : Cov.t)
    (plugin : TIACoveragePlugin.t) (item : Item.t) (nextitem : option Item.t)
    (e : exn) :
  Cov.start fresh = Raise e →
  (TIACoveragePlugin.pytest_runtest_setup fresh plugin item).2
  = ([CovStart], Raise e)
  ∧ TIACoveragePlugin.cov
      (TIACoveragePlugin.pytest_runtest_setup fresh plugin item).1 = Some fresh
  ∧ TIACoveragePlugin.current_test
      (TIACoveragePlugin.pytest_runtest_setup fresh plugin item).1 = Some item
  ∧ ∃ tr r,
      TIACoveragePlugin.pytest_runtest_teardown fs
        (TIACoveragePlugin.pytest_runtest_setup fresh plugin item).1 item nextitem
      = (CovStop :: tr, r).
Proof.
  intros Hstart.
  unfold TIACoveragePlugin.pytest_runtest_setup, call. cbn [fst snd].
  rewrite Hstart. split; [done|]. split; [done|]. split; [done|].
  unfold TIACoveragePlugin.pytest_runtest_teardown, call.
  cbn [TIACoveragePlugin.cov TIACoveragePlugin.current_test].
  destruct (Cov.stop fresh) as [[]|e']; cbn; [|by eexists _, _].
  destruct (TIACoveragePlugin.save_test_coverage _ _ _) as [tr [[]|e']];
    by eexists _, _.
Qed.

Lemma failed_start_leaves_plugin_armed_witness :
  (TIACoveragePlugin.pytest_runtest_setup failing_start_cov new_plugin
     test_get_users).2
  = ([CovStart], Raise start_error).
Proof.
  destruct (failed_start_leaves_plugin_armed sample_fs failing_start_cov
              new_plugin test_get_users None start_error) as (H & _).
  - reflexivity.
  - exact H.
Defined.

(** * Further properties of the sanitizer *)

Lemma length_sub_from_delete r s : ∀ bos skip,
  (String.length (Re.sub_from r "" bos skip s) ≤ String.length s)%nat.
Proof.
  induction s as [|c s IH]; intros bos skip; [done|].
  cbn [Re.sub_from String.length]. destruct skip as [|k].
  - destruct (Re.match_here r bos (String c s)) as [[|n]|].
    + cbn. specialize (IH false 0%nat). lia.
    + rewrite app_empty_l. specialize (IH false n). lia.
    + cbn. specialize (IH false 0%nat). lia.
  - specialize (IH false k). lia.
Qed.

Lemma length_map f s : String.length (Str.map f s) = String.length s.
Proof. induction s as [|c s IH]; [done|]. cbn. by rewrite IH. Qed.

(** [X19] A sanitized name is never longer than the raw name: two
    substitutions only delete, the third replaces character by
    character. So the name of an artifact has at most seven characters
    more than the raw class name and the raw test name together. *)
Theorem sanitized_names_not_longer (test_name class_name : string) :
  (String.length (sanitize_test_name test_name) ≤ String.length test_name)%nat
  ∧ (String.length (sanitize_class_name class_name) ≤ String.length class_name)%nat
  ∧ (String.length (TIACoveragePlugin.artifact_filename
                      {| Item.name := test_name; Item.cls := Some class_name |})
     ≤ String.length class_name + String.length test_name + 7)%nat.
Proof.
  assert (String.length (sanitize_test_name test_name) ≤ String.length test_name)%nat
    as Htest.
  { unfold sanitize_test_name. rewrite sub_special, length_map. unfold Re.sub.
    etrans; [apply length_sub_from_delete|apply length_sub_from_delete]. }
  assert (String.length (sanitize_class_name class_name) ≤ String.length class_name)%nat
    as Hclass.
  { unfold sanitize_class_name. rewrite sub_special, length_map. unfold Re.sub.
    etrans; [apply length_sub_from_delete|apply length_sub_from_delete]. }
  split; [done|]. split; [done|].
  unfold TIACoveragePlugin.artifact_filename. cbn [Item.name Item.cls].
  change (default "NoClass" (Some class_name)) with class_name.
  rewrite !length_app. cbn [String.length]. lia.
Qed.

Lemma map_replace_special_word s :
  Str.forallb word_char s = true → Str.map replace_special s = s.
Proof.
  induction s as [|c s IH]; [done|]. cbn.
  intros [Hc Hs]%andb_true_iff. rewrite IH by done. f_equal.
  unfold replace_special, word_char in *. destruct (alnum c); [done|].
  cbn in Hc. by apply bool_decide_eq_true in Hc.
Qed.

Lemma word_chars_no_bracket s :
  Str.forallb word_char s = true →
  Str.forallb (λ c, negb (bool_decide (c = "["%char))) s = true.
Proof.
  induction s as [|c s IH]; [done|]. cbn.
  intros [Hc Hs]%andb_true_iff. rewrite IH by done.
  case_bool_decide as Heq; [|done]. subst c. done.
Qed.

(** [X20] A name that is already made of [[A-Za-z0-9_]] only goes through
    the sanitizers unchanged unless there is a prefix or a suffix to
    remove: a test name that does not start with [test_], and a class
    name in which [Test] does not occur, are their own sanitized
    names. *)
Theorem safe_names_unchanged (name : string) :
  Str.forallb word_char name = true →
  (Str.startswith "test_" name = false → sanitize_test_name name = name)
  ∧ (Str.contains "Test" name = false → sanitize_class_name name = name).
Proof.
  intros Hword. split.
  - intros Hprefix. unfold sanitize_test_name, Re.test_prefix.
    rewrite sub_prefix_absent by done. unfold Re.sub at 2.
    rewrite sub_from_param_suffix_absent by by apply word_chars_no_bracket.
    rewrite sub_special. by apply map_replace_special_word.
  - intros Habsent. unfold sanitize_class_name, Re.Test_prefix, Re.Test_suffix.
    rewrite sub_prefix_absent by by apply contains_startswith.
    unfold Re.sub at 2. rewrite sub_from_lit_absent by done.
    rewrite sub_special. by apply map_replace_special_word.
Qed.

Lemma safe_names_unchanged_witness :
  sanitize_test_name "get_users" = "get_users"
  ∧ sanitize_class_name "get_users" = "get_users".
Proof.
  destruct (safe_names_unchanged "get_users") as [Htest Hclass].
  - reflexivity.
  - split; [apply Htest|apply Hclass]; reflexivity.
Defined.
